(** * brother_ql: the Windows print-spooler backend

    A shallow embedding of [brother_ql/backends/windows_printer.py]:
    the device enumerator [list_available_devices] and the methods of
    [BrotherQLBackendWindows].

    Conventions of the model.
    - A Python [str] is a list of Unicode code points ([pystr]); [bytes]
      is a list of [Byte.byte].
    - Python statements run in a state-and-exception monad [M].  The state
      survives a raised exception, as attribute assignments do in Python.
    - Every call into [winspool.drv] and every log record is appended to a
      trace kept in the state.  The trace is stored newest event first.
    - The operating system is a [platform]: for each entry point of
      [winspool.drv] a function from the history so far and the arguments
      to the values the call hands back.  Nothing is assumed about it.
    - [ctypes.WinDLL('winspool.drv')] is taken to succeed (the module is
      documented as Windows only), and a foreign call hands back its
      return value without raising. *)

From Stdlib Require Import ZArith NArith List String Ascii Bool Lia.
From Stdlib Require Import Strings.Byte.
From Stdlib Require Import DecimalString.
From Equations Require Import Equations.
From Equations.Prop Require Import Logic.
Import ListNotations.

Set Implicit Arguments.

(** ** Python values *)

(** A [str]: its code points, in order. *)
Definition pystr := list N.

(** A literal of the source, read as code points. *)
Definition lit (s : string) : pystr := map N_of_ascii (list_ascii_of_string s).

(** The double-quote character, code point 34. *)
Definition dquote : pystr := [34%N].

(** [str(n)] for a non-negative integer. *)
Definition str_of_N (n : N) : pystr := lit (NilZero.string_of_uint (N.to_uint n)).
Definition str_of_nat (n : nat) : pystr := str_of_N (N.of_nat n).

(** [str(z)] for an integer. *)
Definition str_of_Z (z : Z) : pystr :=
  match z with
  | Zneg p => lit "-" ++ str_of_N (Npos p)
  | _ => str_of_N (Z.to_N z)
  end.

(** [s.startswith(prefix)] *)
Fixpoint startswith (s prefix : pystr) {struct prefix} : bool :=
  match prefix, s with
  | [], _ => true
  | _ :: _, [] => false
  | p :: prefix', c :: s' => N.eqb c p && startswith s' prefix'
  end.

(** [needle in s]: [needle] occurs as a contiguous run of [s]. *)
Fixpoint contains (needle s : pystr) : bool :=
  startswith s needle ||
  match s with
  | [] => false
  | _ :: s' => contains needle s'
  end.

(** [str.encode('latin-1')]: one byte per code point, defined when every
    code point is at most 255. *)
Fixpoint encode_latin_1 (s : pystr) : option (list byte) :=
  match s with
  | [] => Some []
  | c :: s' =>
      match Byte.of_N c, encode_latin_1 s' with
      | Some b, Some bs => Some (b :: bs)
      | _, _ => None
      end
  end.

(** The values a caller may hand over as [device_specifier]. *)
Inductive pyobj :=
| PyStr (s : pystr)
| PyBytes (b : list byte)
| PyInt (z : Z)
| PyNone
| PyObject (id : N).

(** [isinstance(v, str)] *)
Definition isinstance_str (v : pyobj) : bool :=
  match v with PyStr _ => true | _ => false end.

(** The argument of [_write]: text or raw bytes. *)
Inductive payload :=
| Text (s : pystr)
| Bytes (b : list byte).

(** ** Exceptions *)

(** The classes below [Exception] that occur.  In Python 3 [IOError] and
    [WindowsError] are other names of [OSError]. *)
Inductive exn_class :=
| NotImplementedError
| ValueError
| OSError
| UnicodeEncodeError
| ImportError
| OtherException (name : pystr).

Definition IOError := OSError.
Definition WindowsError := OSError.

(** An exception: its class and [str(e)]. *)
Record exn := Exn { exn_cls : exn_class; exn_msg : pystr }.

(** How the spec calls the error kinds that the source raises. *)
Definition UnsupportedIdentifier : exn :=
  Exn NotImplementedError
      (lit "device_specifier must be a string like " ++ dquote
       ++ lit "windows://Brother QL-500" ++ dquote).
Definition InvalidDeviceName : exn := Exn ValueError (lit "Invalid printer name").
Definition JobStartFailed : exn := Exn IOError (lit "StartDocPrinter failed").
Definition PageStartFailed : exn := Exn IOError (lit "StartPagePrinter failed").
Definition WriteIncomplete (accepted : Z) (requested : nat) : exn :=
  Exn IOError (lit "WritePrinter failed. Bytes written: " ++ str_of_Z accepted
               ++ lit " of " ++ str_of_nat requested).

(** ** Events: calls into winspool.drv and log records *)

Inductive level := DEBUG | INFO | WARNING | ERROR.

(** [DOC_INFO_1] *)
Record DOC_INFO_1 := {
  pDocName : option pystr;
  pOutputFile : option pystr;
  pDatatype : option pystr
}.

(** Each call is recorded with its arguments and with what it handed
    back: the return value and, for [OpenPrinterW] and [WritePrinter],
    the value stored through the [byref] argument. *)
Inductive event :=
| EvOpenPrinterW (pPrinterName : option pystr) (result : Z) (phPrinter : Z)
| EvClosePrinter (hPrinter : Z) (result : Z)
| EvStartDocPrinterW (hPrinter : Z) (Level : Z) (pDocInfo : DOC_INFO_1) (job_id : Z)
| EvStartPagePrinter (hPrinter : Z) (result : Z)
| EvWritePrinter (hPrinter : Z) (pBuf : list byte) (cbBuf : nat) (result : Z) (written : Z)
| EvEndPagePrinter (hPrinter : Z) (result : Z)
| EvEndDocPrinter (hPrinter : Z) (result : Z)
| EvLog (lvl : level) (msg : pystr).

(** The operating system and the runtime, as seen from the module. *)
Record platform := {
  os_OpenPrinterW : list event -> option pystr -> Z * Z;
  os_ClosePrinter : list event -> Z -> Z;
  os_StartDocPrinterW : list event -> Z -> Z -> DOC_INFO_1 -> Z;
  os_StartPagePrinter : list event -> Z -> Z;
  os_WritePrinter : list event -> Z -> list byte -> nat -> Z * Z;
  os_EndPagePrinter : list event -> Z -> Z;
  os_EndDocPrinter : list event -> Z -> Z;
  (** [str(e)] of the [UnicodeEncodeError] that the latin-1 codec raises
      on a text it cannot encode *)
  codec_error_text : pystr -> pystr
}.

(** ** The monad *)

Inductive outcome (A : Type) :=
| Return (a : A)
| Raise (e : exn).
Arguments Return {A} a.
Arguments Raise {A} e.

(** A state that carries a trace. *)
Class Traced (S : Type) := {
  events : S -> list event;
  record : event -> S -> S
}.

Definition M (S A : Type) := S -> outcome A * S.

Definition ret {S A} (a : A) : M S A := fun s => (Return a, s).

Definition bind {S A B} (m : M S A) (k : A -> M S B) : M S B :=
  fun s =>
    match m s with
    | (Return a, s') => k a s'
    | (Raise e, s') => (Raise e, s')
    end.

Definition raise {S A} (e : exn) : M S A := fun s => (Raise e, s).

(** [try: body / except Exception as e: handler e] *)
Definition try_except {S A} (body : M S A) (handler : exn -> M S A) : M S A :=
  fun s =>
    match body s with
    | (Return a, s') => (Return a, s')
    | (Raise e, s') => handler e s'
    end.

(** [try: body / finally: final].  An exception of [final] replaces the
    outcome of [body]. *)
Definition try_finally {S A} (body : M S A) (final : M S unit) : M S A :=
  fun s =>
    match body s with
    | (r, s') =>
        match final s' with
        | (Return _, s'') => (r, s'')
        | (Raise e, s'') => (Raise e, s'')
        end
    end.

(** [if c: m] *)
Definition when {S} (c : bool) (m : M S unit) : M S unit :=
  if c then m else ret tt.

Declare Scope py_scope.
Delimit Scope py_scope with py.
Notation "x <- c1 ;; c2" := (bind c1 (fun x => c2))
  (at level 61, c1 at next level, right associativity) : py_scope.
Notation "' pat <- c1 ;; c2" := (bind c1 (fun x => match x with pat => c2 end))
  (at level 61, pat pattern, c1 at next level, right associativity) : py_scope.
Notation "c1 ;; c2" := (bind c1 (fun _ => c2))
  (at level 61, right associativity) : py_scope.
Local Open Scope py_scope.

(** [logger.<level>(msg)] *)
Definition logger {S} `{Traced S} (lvl : level) (msg : pystr) : M S unit :=
  fun s => (Return tt, record (EvLog lvl msg) s).

(** ** The session object *)

(** The attributes of a [BrotherQLBackendWindows] instance.  [hprinter]
    is [None] or a [wintypes.HANDLE] cell holding a value (0 is NULL). *)
Record session := {
  printer_name : option pystr;
  hprinter : option Z
}.

Record state := {
  self : session;
  trace : list event
}.

#[export] Instance state_Traced : Traced state := {
  events := trace;
  record e s := {| self := self s; trace := e :: trace s |}
}.

Definition get_printer_name : M state (option pystr) :=
  fun s => (Return (printer_name (self s)), s).

Definition get_hprinter : M state (option Z) :=
  fun s => (Return (hprinter (self s)), s).

Definition set_printer_name (v : option pystr) : M state unit :=
  fun s => (Return tt,
            {| self := {| printer_name := v; hprinter := hprinter (self s) |};
               trace := trace s |}).

Definition set_hprinter (v : option Z) : M state unit :=
  fun s => (Return tt,
            {| self := {| printer_name := printer_name (self s); hprinter := v |};
               trace := trace s |}).

(** [str(v)] of an attribute that may be [None]. *)
Definition str_of_opt (v : option pystr) : pystr :=
  match v with Some s => s | None => lit "None" end.

(** The value ctypes passes for a handle argument: [None] goes as NULL. *)
Definition c_handle (h : option Z) : Z :=
  match h with Some v => v | None => 0%Z end.

(** [wintypes.DWORD.value]: an unsigned 32-bit integer. *)
Definition DWORD_value (z : Z) : Z := (z mod 2 ^ 32)%Z.

(** [not x] for an integer. *)
Definition is_zero (z : Z) : bool := (z =? 0)%Z.

(** [not s] for a string attribute: [None] and the empty string. *)
Definition is_empty_name (v : option pystr) : bool :=
  match v with
  | None => true
  | Some [] => true
  | Some (_ :: _) => false
  end.

Section Backend.

Variable os : platform.

(** *** Calls into winspool.drv *)

(** [ctypes.WinDLL(name)] *)
Definition WinDLL (name : pystr) : M state unit := ret tt.

(** [winspool.OpenPrinterW(c_wchar_p(name), byref(self.hprinter), None)]:
    the handle is stored through the reference into the cell that
    [self.hprinter] holds. *)
Definition winspool_OpenPrinterW (name : option pystr) : M state Z :=
  fun s =>
    let '(result, h) := os_OpenPrinterW os (trace s) name in
    (Return result,
     {| self := {| printer_name := printer_name (self s); hprinter := Some h |};
        trace := EvOpenPrinterW name result h :: trace s |}).

Definition winspool_ClosePrinter (h : Z) : M state Z :=
  fun s =>
    let result := os_ClosePrinter os (trace s) h in
    (Return result, record (EvClosePrinter h result) s).

Definition winspool_StartDocPrinterW (h : Z) (lvl : Z) (doc_info : DOC_INFO_1)
  : M state Z :=
  fun s =>
    let job_id := os_StartDocPrinterW os (trace s) h lvl doc_info in
    (Return job_id, record (EvStartDocPrinterW h lvl doc_info job_id) s).

Definition winspool_StartPagePrinter (h : Z) : M state Z :=
  fun s =>
    let result := os_StartPagePrinter os (trace s) h in
    (Return result, record (EvStartPagePrinter h result) s).

(** [winspool.WritePrinter(h, data, len(data), byref(written))]: hands
    back the return value and [written.value]. *)
Definition winspool_WritePrinter (h : Z) (data : list byte) (cb : nat)
  : M state (Z * Z) :=
  fun s =>
    let '(result, w) := os_WritePrinter os (trace s) h data cb in
    let written := DWORD_value w in
    (Return (result, written), record (EvWritePrinter h data cb result written) s).

Definition winspool_EndPagePrinter (h : Z) : M state Z :=
  fun s =>
    let result := os_EndPagePrinter os (trace s) h in
    (Return result, record (EvEndPagePrinter h result) s).

Definition winspool_EndDocPrinter (h : Z) : M state Z :=
  fun s =>
    let result := os_EndDocPrinter os (trace s) h in
    (Return result, record (EvEndDocPrinter h result) s).

(** [data.encode('latin-1')] *)
Definition encode (s : pystr) : M state (list byte) :=
  match encode_latin_1 s with
  | Some b => ret b
  | None => raise (Exn UnicodeEncodeError (codec_error_text os s))
  end.

(** *** The methods of BrotherQLBackendWindows *)

Definition _open_printer : M state unit :=
  h <- get_hprinter ;;
  match h with
  | Some _ => ret tt
  | None =>
      WinDLL (lit "winspool.drv") ;;
      set_hprinter (Some 0%Z) ;;
      name <- get_printer_name ;;
      result <- winspool_OpenPrinterW name ;;
      when (is_zero result)
           (raise (Exn OSError (lit "Failed to open printer: " ++ str_of_opt name)))
  end.

Definition _close_printer : M state unit :=
  h <- get_hprinter ;;
  match h with
  | Some v =>
      WinDLL (lit "winspool.drv") ;;
      winspool_ClosePrinter v ;;
      set_hprinter None
  | None => ret tt
  end.

Definition __init__ (device_specifier : pyobj) : M state unit :=
  set_printer_name None ;;
  set_hprinter None ;;
  match device_specifier with
  | PyStr s =>
      if startswith s (lit "windows://")
      then set_printer_name (Some (skipn 10 s))
      else set_printer_name (Some s)
  | _ => raise UnsupportedIdentifier
  end ;;
  name <- get_printer_name ;;
  when (is_empty_name name) (raise InvalidDeviceName) ;;
  logger INFO (lit "Initializing Windows printer backend for: " ++ str_of_opt name) ;;
  try_except
    (_open_printer ;; _close_printer)
    (fun e =>
       raise (Exn ValueError
                  (lit "Could not open printer " ++ dquote ++ str_of_opt name
                   ++ dquote ++ lit ": " ++ exn_msg e))).

Definition _write (data : payload) : M state unit :=
  try_except
    (_open_printer ;;
     WinDLL (lit "winspool.drv") ;;
     data <- match data with
             | Text s => encode s
             | Bytes b => ret b
             end ;;
     let doc_info := {| pDocName := Some (lit "Brother QL Label");
                        pOutputFile := None;
                        pDatatype := Some (lit "RAW") |} in
     h <- get_hprinter ;;
     job_id <- winspool_StartDocPrinterW (c_handle h) 1 doc_info ;;
     when (is_zero job_id) (raise JobStartFailed) ;;
     try_finally
       (h <- get_hprinter ;;
        started <- winspool_StartPagePrinter (c_handle h) ;;
        when (is_zero started) (raise PageStartFailed) ;;
        h <- get_hprinter ;;
        ' (result, written) <- winspool_WritePrinter (c_handle h) data (List.length data) ;;
        when (is_zero result) (raise (WriteIncomplete written (List.length data))) ;;
        logger DEBUG (lit "Wrote " ++ str_of_Z written ++ lit " bytes to printer") ;;
        h <- get_hprinter ;;
        ended <- winspool_EndPagePrinter (c_handle h) ;;
        when (is_zero ended) (logger WARNING (lit "EndPagePrinter failed")))
       (h <- get_hprinter ;;
        ended <- winspool_EndDocPrinter (c_handle h) ;;
        when (is_zero ended) (logger WARNING (lit "EndDocPrinter failed"))))
    (fun e =>
       logger ERROR (lit "Error writing to printer: " ++ exn_msg e) ;;
       raise e).

(** [_read(length=32)] *)
Definition _read (length : Z) : M state (list byte) := ret [].

Definition dispose : M state unit :=
  try_except _close_printer (fun _ => ret tt).

Definition __del__ : M state unit := dispose.

End Backend.

(** ** The device enumerator *)

(** An entry of the list that [list_available_devices] returns. *)
Record device := {
  identifier : pystr;
  instance : option pyobj
}.

(** The [winreg] module as the enumerator meets it.  [Some e] in one of
    the first three fields makes the operation raise [e].
    [reg_subkeys] are the names under the Printers key: [EnumKey(key, i)]
    returns the i-th and raises [WindowsError] past the last. *)
Record winreg := {
  reg_import : option exn;
  reg_OpenKey : option exn;
  reg_CloseKey : option exn;
  reg_subkeys : list pystr
}.

(** The local variable [devices] (it keeps what was appended when an
    exception leaves the inner [try]) and the log. *)
Record frame := {
  devices : list device;
  log : list event
}.

#[export] Instance frame_Traced : Traced frame := {
  events := log;
  record e f := {| devices := devices f; log := e :: log f |}
}.

Definition get_devices : M frame (list device) :=
  fun f => (Return (devices f), f).

Definition set_devices (d : list device) : M frame unit :=
  fun f => (Return tt, {| devices := d; log := log f |}).

(** An operation that raises when the registry says so. *)
Definition may_raise (e : option exn) : M frame unit :=
  match e with
  | Some e => raise e
  | None => ret tt
  end.

(** The test of the loop body: ['Brother' in name or 'QL' in name]. *)
Definition brother_or_QL (printer_name : pystr) : bool :=
  contains (lit "Brother") printer_name || contains (lit "QL") printer_name.

(** [{'identifier': f'windows://{name}', 'instance': None}] *)
Definition windows_device (name : pystr) : device :=
  {| identifier := lit "windows://" ++ name; instance := None |}.

(** One round of the body of the [while] loop, on the name that
    [EnumKey] returned. *)
Definition append_if_brother (printer_name : pystr) (ds : list device)
  : list device :=
  if brother_or_QL printer_name
  then ds ++ [windows_device printer_name]
  else ds.

(** The [while True] loop from index [i]: it ends at the first index at
    which [EnumKey] raises [WindowsError]. *)
Equations? enum_loop (keys : list pystr) (i : nat) (ds : list device)
  : list device by wf (List.length keys - i) lt :=
enum_loop keys i ds with inspect (nth_error keys i) := {
  | exist _ (Some printer_name) _ =>
      enum_loop keys (S i) (append_if_brother printer_name ds)
  | exist _ None _ => ds
}.
Proof.
  assert (i < List.length keys) by (apply nth_error_Some; congruence).
  lia.
Qed.

Definition common_names : list pystr :=
  [lit "Brother QL-500"; lit "Brother QL-550"; lit "Brother QL-600";
   lit "Brother QL-700"].

Definition is_nil {A} (l : list A) : bool :=
  match l with [] => true | _ :: _ => false end.

Definition list_available_devices (reg : winreg) : M frame (list device) :=
  try_except
    (may_raise (reg_import reg) ;;
     set_devices [] ;;
     try_except
       (may_raise (reg_OpenKey reg) ;;
        ds <- get_devices ;;
        set_devices (enum_loop (reg_subkeys reg) 0 ds) ;;
        may_raise (reg_CloseKey reg))
       (fun e =>
          logger DEBUG (lit "Could not enumerate printers from registry: "
                        ++ exn_msg e)) ;;
     ds <- get_devices ;;
     when (is_nil ds)
          (set_devices (map windows_device common_names)) ;;
     get_devices)
    (fun e =>
       logger ERROR (lit "Error listing Windows printers: " ++ exn_msg e) ;;
       ret []).

(** ** Reading a run *)

(** [emitted m s evs]: running [m] from [s] adds exactly the events [evs]
    (newest first) to the history. *)
Definition emitted {A} (m : M state A) (s : state) (evs : list event) : Prop :=
  trace (snd (m s)) = evs ++ trace s.

Definition is_OpenPrinterW (e : event) : bool :=
  match e with EvOpenPrinterW _ _ _ => true | _ => false end.
Definition is_ClosePrinter (e : event) : bool :=
  match e with EvClosePrinter _ _ => true | _ => false end.
Definition is_StartPagePrinter (e : event) : bool :=
  match e with EvStartPagePrinter _ _ => true | _ => false end.
Definition is_WritePrinter (e : event) : bool :=
  match e with EvWritePrinter _ _ _ _ _ => true | _ => false end.
Definition is_EndPagePrinter (e : event) : bool :=
  match e with EvEndPagePrinter _ _ => true | _ => false end.
Definition is_EndDocPrinter (e : event) : bool :=
  match e with EvEndDocPrinter _ _ => true | _ => false end.

(** A call into winspool.drv, as opposed to a log record. *)
Definition is_os_call (e : event) : bool :=
  match e with EvLog _ _ => false | _ => true end.

(** How many events of a kind a trace holds. *)
Definition count (p : event -> bool) (evs : list event) : nat :=
  List.length (filter p evs).

(** The error kinds of the job transport. *)
Definition is_job_error (e : exn) : Prop :=
  e = JobStartFailed \/ e = PageStartFailed \/
  exists accepted requested, e = WriteIncomplete accepted requested.


(** Open called twice in a row, whatever the outcome of the first call. *)
Definition open_twice (os : platform) : M state unit :=
  fun s => _open_printer os (snd (_open_printer os s)).

(** The list returned when nothing was found. *)
Definition fallback_devices : list device :=
  [windows_device (lit "Brother QL-500"); windows_device (lit "Brother QL-550");
   windows_device (lit "Brother QL-600"); windows_device (lit "Brother QL-700")].

(** ** Sentences of the spec that the code does not satisfy

    Each is written down for one run, as the spec words it, and refuted
    below on a concrete run. *)

(** If the transfer step reports fewer bytes accepted than requested, the
    call fails with [WriteIncomplete] carrying both counts, and end-page
    and end-document are each called once. *)
Definition short_transfer_fails (os : platform) (data : payload) (s : state)
  : Prop :=
  forall evs h buf cb result written,
    emitted (_write os data) s evs ->
    In (EvWritePrinter h buf cb result written) evs ->
    (written < Z.of_nat cb)%Z ->
    fst (_write os data s) = Raise (WriteIncomplete written cb) /\
    count is_EndPagePrinter evs = 1 /\
    count is_EndDocPrinter evs = 1.


(** A step of the registry discovery raises: the import of the registry
    module, the opening of the Printers key or its closing. *)
Definition discovery_fails (reg : winreg) : Prop :=
  reg_import reg <> None \/ reg_OpenKey reg <> None \/ reg_CloseKey reg <> None.

(** If the registry discovery fails or its filtering yields no match, the
    enumerator returns the four fallback entries; and it never raises. *)
Definition fallback_on_failure (reg : winreg) (f : frame) : Prop :=
  (discovery_fails reg \/ filter brother_or_QL (reg_subkeys reg) = [] ->
   fst (list_available_devices reg f) = Return fallback_devices) /\
  (exists ds, fst (list_available_devices reg f) = Return ds).


(** ** Concrete platforms and sessions *)

(** A spooler on which every call succeeds: handle 7, job 1, all bytes
    accepted. *)
Definition os_ok : platform := {|
  os_OpenPrinterW := fun _ _ => (1, 7)%Z;
  os_ClosePrinter := fun _ _ => 1%Z;
  os_StartDocPrinterW := fun _ _ _ _ => 1%Z;
  os_StartPagePrinter := fun _ _ => 1%Z;
  os_WritePrinter := fun _ _ _ cb => (1%Z, Z.of_nat cb);
  os_EndPagePrinter := fun _ _ => 1%Z;
  os_EndDocPrinter := fun _ _ => 1%Z;
  codec_error_text := fun _ => lit "ordinal not in range(256)"
|}.

(** As [os_ok], but [WritePrinter] reports success with no byte accepted. *)
Definition os_short : platform := {|
  os_OpenPrinterW := fun _ _ => (1, 7)%Z;
  os_ClosePrinter := fun _ _ => 1%Z;
  os_StartDocPrinterW := fun _ _ _ _ => 1%Z;
  os_StartPagePrinter := fun _ _ => 1%Z;
  os_WritePrinter := fun _ _ _ _ => (1, 0)%Z;
  os_EndPagePrinter := fun _ _ => 1%Z;
  os_EndDocPrinter := fun _ _ => 1%Z;
  codec_error_text := fun _ => lit "ordinal not in range(256)"
|}.

(** [WritePrinter] fails after 3 bytes; [EndDocPrinter] fails too. *)
Definition os_write_fails : platform := {|
  os_OpenPrinterW := fun _ _ => (1, 7)%Z;
  os_ClosePrinter := fun _ _ => 1%Z;
  os_StartDocPrinterW := fun _ _ _ _ => 1%Z;
  os_StartPagePrinter := fun _ _ => 1%Z;
  os_WritePrinter := fun _ _ _ _ => (0, 3)%Z;
  os_EndPagePrinter := fun _ _ => 1%Z;
  os_EndDocPrinter := fun _ _ => 0%Z;
  codec_error_text := fun _ => lit "ordinal not in range(256)"
|}.

(** [StartDocPrinterW] fails. *)
Definition os_no_job : platform := {|
  os_OpenPrinterW := fun _ _ => (1, 7)%Z;
  os_ClosePrinter := fun _ _ => 1%Z;
  os_StartDocPrinterW := fun _ _ _ _ => 0%Z;
  os_StartPagePrinter := fun _ _ => 1%Z;
  os_WritePrinter := fun _ _ _ cb => (1%Z, Z.of_nat cb);
  os_EndPagePrinter := fun _ _ => 1%Z;
  os_EndDocPrinter := fun _ _ => 1%Z;
  codec_error_text := fun _ => lit "ordinal not in range(256)"
|}.

(** [OpenPrinterW] fails: the printer cannot be reached. *)
Definition os_unreachable : platform := {|
  os_OpenPrinterW := fun _ _ => (0, 0)%Z;
  os_ClosePrinter := fun _ _ => 1%Z;
  os_StartDocPrinterW := fun _ _ _ _ => 1%Z;
  os_StartPagePrinter := fun _ _ => 1%Z;
  os_WritePrinter := fun _ _ _ cb => (1%Z, Z.of_nat cb);
  os_EndPagePrinter := fun _ _ => 1%Z;
  os_EndDocPrinter := fun _ _ => 1%Z;
  codec_error_text := fun _ => lit "ordinal not in range(256)"
|}.

(** An object before [__init__] ran, with an empty history. *)
Definition fresh : state :=
  {| self := {| printer_name := None; hprinter := None |}; trace := [] |}.

(** A session constructed for the printer [name]: it holds no handle. *)
Definition idle (name : pystr) : state :=
  {| self := {| printer_name := Some name; hprinter := None |}; trace := [] |}.

(** The label printer of the examples. *)
Definition QL500 : state := idle (lit "Brother QL-500").

(** The document information that [_write] submits. *)
Definition label_doc : DOC_INFO_1 :=
  {| pDocName := Some (lit "Brother QL Label");
     pOutputFile := None;
     pDatatype := Some (lit "RAW") |}.

(** A registry without a label printer, and a platform without the
    [winreg] module. *)
Definition reg_office : winreg :=
  {| reg_import := None; reg_OpenKey := None; reg_CloseKey := None;
     reg_subkeys := [lit "HP LaserJet"; lit "Canon PIXMA"] |}.

Definition reg_missing : winreg :=
  {| reg_import := Some (Exn ImportError (lit "No module named 'winreg'"));
     reg_OpenKey := None; reg_CloseKey := None; reg_subkeys := [] |}.

Definition no_devices : frame := {| devices := []; log := [] |}.

(** ** The calls of a run, in order *)

(** The entry points of winspool.drv that the module uses. *)
Inductive call :=
| OpenPrinterW
| ClosePrinter
| StartDocPrinterW
| StartPagePrinter
| WritePrinter
| EndPagePrinter
| EndDocPrinter.

(** The entry point behind an event; a log record has none. *)
Definition call_of (e : event) : list call :=
  match e with
  | EvOpenPrinterW _ _ _ => [OpenPrinterW]
  | EvClosePrinter _ _ => [ClosePrinter]
  | EvStartDocPrinterW _ _ _ _ => [StartDocPrinterW]
  | EvStartPagePrinter _ _ => [StartPagePrinter]
  | EvWritePrinter _ _ _ _ _ => [WritePrinter]
  | EvEndPagePrinter _ _ => [EndPagePrinter]
  | EvEndDocPrinter _ _ => [EndDocPrinter]
  | EvLog _ _ => []
  end.

(** The entry points that a run called, oldest first. *)
Definition calls (evs : list event) : list call := rev (flat_map call_of evs).

(** The handle a call is about: the one [OpenPrinterW] stored, the one
    the other calls were given. *)
Definition handle_of (e : event) : option Z :=
  match e with
  | EvOpenPrinterW _ _ h => Some h
  | EvClosePrinter h _ => Some h
  | EvStartDocPrinterW h _ _ _ => Some h
  | EvStartPagePrinter h _ => Some h
  | EvWritePrinter h _ _ _ _ => Some h
  | EvEndPagePrinter h _ => Some h
  | EvEndDocPrinter h _ => Some h
  | EvLog _ _ => None
  end.

Definition is_error_log (e : event) : bool :=
  match e with EvLog ERROR _ => true | _ => false end.

(** [needle] is a contiguous run of [s]. *)
Definition occurs_in (needle s : pystr) : Prop :=
  exists before after, s = before ++ needle ++ after.

(** The name that [__init__] resolves an identifier string to. *)
Definition resolved_name (spec : pystr) : pystr :=
  if startswith spec (lit "windows://") then skipn 10 spec else spec.

(** [StartPagePrinter] fails; [EndDocPrinter] succeeds. *)
Definition os_no_page : platform := {|
  os_OpenPrinterW := fun _ _ => (1, 7)%Z;
  os_ClosePrinter := fun _ _ => 1%Z;
  os_StartDocPrinterW := fun _ _ _ _ => 1%Z;
  os_StartPagePrinter := fun _ _ => 0%Z;
  os_WritePrinter := fun _ _ _ cb => (1%Z, Z.of_nat cb);
  os_EndPagePrinter := fun _ _ => 1%Z;
  os_EndDocPrinter := fun _ _ => 1%Z;
  codec_error_text := fun _ => lit "ordinal not in range(256)"
|}.

(** [ClosePrinter] reports failure; everything else succeeds. *)
Definition os_close_fails : platform := {|
  os_OpenPrinterW := fun _ _ => (1, 7)%Z;
  os_ClosePrinter := fun _ _ => 0%Z;
  os_StartDocPrinterW := fun _ _ _ _ => 1%Z;
  os_StartPagePrinter := fun _ _ => 1%Z;
  os_WritePrinter := fun _ _ _ cb => (1%Z, Z.of_nat cb);
  os_EndPagePrinter := fun _ _ => 1%Z;
  os_EndDocPrinter := fun _ _ => 1%Z;
  codec_error_text := fun _ => lit "ordinal not in range(256)"
|}.

(** [EndPagePrinter] fails; everything else succeeds. *)
Definition os_no_end_page : platform := {|
  os_OpenPrinterW := fun _ _ => (1, 7)%Z;
  os_ClosePrinter := fun _ _ => 1%Z;
  os_StartDocPrinterW := fun _ _ _ _ => 1%Z;
  os_StartPagePrinter := fun _ _ => 1%Z;
  os_WritePrinter := fun _ _ _ cb => (1%Z, Z.of_nat cb);
  os_EndPagePrinter := fun _ _ => 0%Z;
  os_EndDocPrinter := fun _ _ => 1%Z;
  codec_error_text := fun _ => lit "ordinal not in range(256)"
|}.

(** A session that holds the handle 7. *)
Definition QL500_open : state :=
  {| self := {| printer_name := Some (lit "Brother QL-500"); hprinter := Some 7%Z |};
     trace := [] |}.

(** A registry with two label printers among other printers, one whose
    key cannot be closed, and one whose key cannot be opened. *)
Definition reg_labels : winreg :=
  {| reg_import := None; reg_OpenKey := None; reg_CloseKey := None;
     reg_subkeys := [lit "HP LaserJet"; lit "Brother QL-600"; lit "Fax";
                     lit "QL-700 (Copy 1)"] |}.

Definition reg_close_fails : winreg :=
  {| reg_import := None; reg_OpenKey := None;
     reg_CloseKey := Some (Exn OSError (lit "The handle is invalid"));
     reg_subkeys := [lit "HP LaserJet"; lit "Brother QL-600"] |}.

Definition reg_locked : winreg :=
  {| reg_import := None;
     reg_OpenKey := Some (Exn OSError (lit "Access is denied"));
     reg_CloseKey := None;
     reg_subkeys := [lit "Brother QL-600"] |}.

(** ** Proof tools *)

(** The part of the list [l] in front of its tail [tl]. *)
Ltac front l tl :=
  lazymatch l with
  | tl => constr:(@nil event)
  | ?e :: ?l' => let p := front l' tl in constr:(e :: p)
  end.

(** Turn [H : e1 :: ... :: tl = evs ++ tl] into [evs = [e1; ...]]. *)
Ltac name_events H :=
  lazymatch type of H with
  | ?l = ?evs ++ ?tl =>
      let p := front l tl in
      change l with (p ++ tl) in H;
      apply app_inv_tail in H; subst evs
  end.

(** The events of [l] that are newer than its end-document call. *)
Ltac after_end_doc l :=
  lazymatch l with
  | EvEndDocPrinter _ _ :: _ => constr:(@nil event)
  | ?e :: ?l' => let p := after_end_doc l' in constr:(e :: p)
  end.

(** Split a run on one thing it depends on. *)
Ltac split_run :=
  match goal with
  | |- context [match ?h with Some _ => _ | None => _ end] =>
      is_var h; destruct h
  | |- context [os_OpenPrinterW ?o ?t ?n] =>
      destruct (os_OpenPrinterW o t n) as [? ?] eqn:?
  | |- context [os_WritePrinter ?o ?t ?h ?d ?n] =>
      destruct (os_WritePrinter o t h d n) as [? ?] eqn:?
  | |- context [encode_latin_1 ?t] => destruct (encode_latin_1 t) eqn:?
  | |- context [is_zero ?z] => destruct (is_zero z) eqn:?
  end; cbn.

(** Open up the session, the payload and the statements of a method. *)
Ltac unfold_run :=
  repeat match goal with
         | s : state |- _ => destruct s as [[? ?] ?]
         | d : payload |- _ => destruct d
         end;
  unfold emitted, open_twice, _write, __init__, dispose, __del__,
    _open_printer, _close_printer, _read, encode,
    try_except, try_finally, bind, when, raise, ret, logger, WinDLL,
    get_hprinter, get_printer_name, set_hprinter, set_printer_name,
    winspool_OpenPrinterW, winspool_ClosePrinter, winspool_StartDocPrinterW,
    winspool_StartPagePrinter, winspool_WritePrinter, winspool_EndPagePrinter,
    winspool_EndDocPrinter;
  cbn.

(** Read the tests on return values as equations. *)
Ltac read_tests :=
  repeat match goal with
         | H : is_zero _ = true |- _ => apply Z.eqb_eq in H
         | H : is_zero _ = false |- _ => apply Z.eqb_neq in H
         end.

(** Go through the members of a trace that is known event by event. *)
Ltac member H :=
  cbn in H;
  repeat match type of H with
         | _ \/ _ => destruct H as [H | H]
         end;
  try discriminate H; try contradiction;
  try (injection H as; subst).

(** Close a case in which a test on a known return value went the
    other way. *)
Ltac known_tests :=
  try match goal with
      | H : is_zero 0 = false |- _ => vm_compute in H; discriminate H
      end.

(** * The job transport *)

(** Every run of [_write] adds some events to the history, and only
    adds. *)
Lemma write_emits (os : platform) (data : payload) (s : state) :
  exists evs, emitted (_write os data) s evs.
Proof.
  unfold_run; repeat split_run;
    match goal with
    | |- exists evs, ?l = evs ++ ?tl =>
        let p := front l tl in exists p; reflexivity
    end.
Qed.

(** The scenario of the spec: a payload of 100 bytes, all accepted.  The
    call returns normally; end-page and end-document are called once. *)
Example write_100_bytes :
  let run := _write os_ok (Bytes (repeat x00 100)) QL500 in
  fst run = Return tt /\
  count is_EndPagePrinter (trace (snd run)) = 1 /\
  count is_EndDocPrinter (trace (snd run)) = 1.
Proof. vm_compute. repeat split. Qed.

(** C4.  When the begin-document step of a write call fails, the call
    fails with [JobStartFailed]; no begin-page, transfer, end-page (nor
    end-document) call is made; the handle is not closed: the session
    still holds the handle that the failed step was given, and a later
    Open succeeds on it without a call to the system. *)
Theorem write_begin_document_fails
  (os : platform) (data : payload) (s : state)
  (evs : list event) (h lvl : Z) (doc : DOC_INFO_1) :
  emitted (_write os data) s evs ->
  In (EvStartDocPrinterW h lvl doc 0) evs ->
  fst (_write os data s) = Raise JobStartFailed /\
  count is_StartPagePrinter evs = 0 /\
  count is_WritePrinter evs = 0 /\
  count is_EndPagePrinter evs = 0 /\
  count is_EndDocPrinter evs = 0 /\
  count is_ClosePrinter evs = 0 /\
  hprinter (self (snd (_write os data s))) = Some h /\
  _open_printer os (snd (_write os data s)) = (Return tt, snd (_write os data s)).
Proof.
  revert evs. unfold_run; repeat split_run;
    intros evs Hev Hin; name_events Hev; member Hin;
    read_tests; try congruence;
    repeat split; reflexivity.
Qed.

Lemma write_begin_document_fails_witness :
  let run := _write os_no_job (Bytes [x01]) QL500 in
  fst run = Raise JobStartFailed /\
  count is_StartPagePrinter (trace (snd run)) = 0 /\
  count is_WritePrinter (trace (snd run)) = 0 /\
  count is_EndPagePrinter (trace (snd run)) = 0 /\
  count is_EndDocPrinter (trace (snd run)) = 0 /\
  count is_ClosePrinter (trace (snd run)) = 0 /\
  hprinter (self (snd run)) = Some 7%Z /\
  _open_printer os_no_job (snd run) = (Return tt, snd run).
Proof.
  apply (@write_begin_document_fails os_no_job (Bytes [x01]) QL500
           _ 7%Z 1%Z label_doc).
  - vm_compute. reflexivity.
  - vm_compute. auto.
Defined.

(** C1, as stated, fails: [WritePrinter] returns success with 0 of 1
    bytes accepted, and the write call returns normally. *)
Lemma short_transfer_accepted :
  ~ short_transfer_fails os_short (Bytes [x01]) QL500.
Proof.
  intros claim.
  destruct (claim (trace (snd (_write os_short (Bytes [x01]) QL500)))
                  7%Z [x01] 1 1%Z 0%Z) as [Hfails _].
  - vm_compute. reflexivity.
  - vm_compute. auto 10.
  - lia.
  - vm_compute in Hfails. discriminate Hfails.
Qed.

(** C1, amended.  The write call looks at the return value of the
    transfer step, not at the accepted count.  The step is given the
    payload bytes and their number.  If it returns failure, the call
    fails with [WriteIncomplete] carrying the accepted and the requested
    count, end-page is not called and end-document is called once.  If it
    returns success, the call returns normally whatever the accepted
    count, and end-page and end-document are each called once. *)
Theorem write_transfer_result
  (os : platform) (data : payload) (s : state) (evs : list event)
  (h : Z) (buf : list byte) (cb : nat) (result written : Z) :
  emitted (_write os data) s evs ->
  In (EvWritePrinter h buf cb result written) evs ->
  match data with
  | Bytes b => buf = b
  | Text t => encode_latin_1 t = Some buf
  end /\
  cb = List.length buf /\
  (result = 0%Z ->
   fst (_write os data s) = Raise (WriteIncomplete written cb) /\
   count is_EndPagePrinter evs = 0 /\
   count is_EndDocPrinter evs = 1) /\
  (result <> 0%Z ->
   fst (_write os data s) = Return tt /\
   count is_EndPagePrinter evs = 1 /\
   count is_EndDocPrinter evs = 1).
Proof.
  revert evs. unfold_run; repeat split_run;
    intros evs Hev Hin; name_events Hev; member Hin;
    read_tests;
    repeat split; intros; try congruence; reflexivity.
Qed.

Lemma write_transfer_result_witness :
  (let run := _write os_write_fails (Text (lit "abcde")) QL500 in
   fst run = Raise (WriteIncomplete 3 5) /\
   count is_EndPagePrinter (trace (snd run)) = 0 /\
   count is_EndDocPrinter (trace (snd run)) = 1) /\
  (let run := _write os_short (Bytes [x01]) QL500 in
   fst run = Return tt /\
   count is_EndPagePrinter (trace (snd run)) = 1 /\
   count is_EndDocPrinter (trace (snd run)) = 1).
Proof.
  split.
  - pose proof (@write_transfer_result os_write_fails (Text (lit "abcde")) QL500
                  (trace (snd (_write os_write_fails (Text (lit "abcde")) QL500)))
                  7%Z [x61; x62; x63; x64; x65] 5 0%Z 3%Z) as H.
    specialize (H ltac:(vm_compute; reflexivity) ltac:(vm_compute; auto 10)).
    exact (proj1 (proj2 (proj2 H)) eq_refl).
  - pose proof (@write_transfer_result os_short (Bytes [x01]) QL500
                  (trace (snd (_write os_short (Bytes [x01]) QL500)))
                  7%Z [x01] 1 1%Z 0%Z) as H.
    specialize (H ltac:(vm_compute; reflexivity) ltac:(vm_compute; auto 10)).
    apply (proj2 (proj2 (proj2 H))). discriminate.
Defined.




(** C3.  When the begin-document step of a write call succeeded, the
    end-document step is called on the same handle, once, after it, and
    it is the last call of the run into the system, also when begin-page
    or the transfer failed.  When end-document fails, a warning is
    logged.  What the call raises is never due to end-document: the call
    returns normally, or raises [PageStartFailed] after a failed
    begin-page, or [WriteIncomplete] after a failed transfer. *)
Theorem write_end_document_attempted
  (os : platform) (data : payload) (s : state) (evs : list event)
  (h lvl : Z) (doc : DOC_INFO_1) (job_id : Z) :
  emitted (_write os data) s evs ->
  In (EvStartDocPrinterW h lvl doc job_id) evs ->
  job_id <> 0%Z ->
  exists after before result,
    evs = after ++ EvEndDocPrinter h result :: before /\
    In (EvStartDocPrinterW h lvl doc job_id) before /\
    count is_EndDocPrinter evs = 1 /\
    count is_os_call after = 0 /\
    (result = 0%Z -> In (EvLog WARNING (lit "EndDocPrinter failed")) after) /\
    (fst (_write os data s) = Return tt \/
     (fst (_write os data s) = Raise PageStartFailed /\
      In (EvStartPagePrinter h 0) before) \/
     (exists buf cb written,
        fst (_write os data s) = Raise (WriteIncomplete written cb) /\
        In (EvWritePrinter h buf cb 0 written) before)).
Proof.
  revert evs. unfold_run; repeat split_run;
    intros evs Hev Hin Hjob; name_events Hev; member Hin;
    read_tests; try congruence;
    match goal with
    | |- exists a b r, ?l = _ /\ _ =>
        let a := after_end_doc l in exists a; do 2 eexists
    end;
    (split; [reflexivity |]);
    repeat match goal with
           | H : _ = 0%Z |- _ => rewrite H in *
           end;
    cbn; intuition (try congruence); eauto 12.
Qed.

Lemma write_end_document_attempted_witness :
  let run := _write os_write_fails (Text (lit "abcde")) QL500 in
  exists after before result,
    trace (snd run) = after ++ EvEndDocPrinter 7 result :: before /\
    In (EvStartDocPrinterW 7 1 label_doc 1) before /\
    count is_EndDocPrinter (trace (snd run)) = 1 /\
    count is_os_call after = 0 /\
    (result = 0%Z -> In (EvLog WARNING (lit "EndDocPrinter failed")) after) /\
    (fst run = Return tt \/
     (fst run = Raise PageStartFailed /\ In (EvStartPagePrinter 7 0) before) \/
     (exists buf cb written,
        fst run = Raise (WriteIncomplete written cb) /\
        In (EvWritePrinter 7 buf cb 0 written) before)).
Proof.
  apply (@write_end_document_attempted os_write_fails (Text (lit "abcde")) QL500).
  - vm_compute. reflexivity.
  - vm_compute. auto 10.
  - discriminate.
Defined.

(** * Construction *)

Lemma startswith_app (p rest : pystr) : startswith (p ++ rest) p = true.
Proof.
  induction p as [|c p IH]; cbn; [reflexivity |].
  rewrite N.eqb_refl, IH. reflexivity.
Qed.

Lemma startswith_true (s p : pystr) :
  startswith s p = true -> exists rest, s = p ++ rest.
Proof.
  revert s. induction p as [|c p IH]; intros s H.
  - exists s. reflexivity.
  - destruct s as [|d s]; cbn in H; [discriminate |].
    apply andb_true_iff in H. destruct H as [Hc Hp].
    apply N.eqb_eq in Hc. subst d.
    destruct (IH s Hp) as [rest ->].
    exists rest. reflexivity.
Qed.

(** [startswith] decides whether a string begins with a prefix. *)
Lemma startswith_spec (s p : pystr) :
  startswith s p = true <-> exists rest, s = p ++ rest.
Proof.
  split; [apply startswith_true |].
  intros [rest ->]. apply startswith_app.
Qed.

(** The run of [__init__] on a string, by the name it resolves to. *)
Lemma init_str_run (os : platform) (s : state) (spec : pystr) :
  let name := if startswith spec (lit "windows://") then skipn 10 spec else spec in
  printer_name (self (snd (__init__ os (PyStr spec) s))) = Some name /\
  (name = [] ->
   __init__ os (PyStr spec) s =
   (Raise InvalidDeviceName,
    {| self := {| printer_name := Some []; hprinter := None |};
       trace := trace s |})).
Proof.
  unfold __init__.
  destruct (startswith spec (lit "windows://"));
    [generalize (skipn 10 spec) | generalize spec];
    intros name; destruct name; unfold_run; repeat split_run;
    split; try reflexivity; discriminate.
Qed.

(** The scenario of the spec: the identifier with the scheme prefix in
    front of [Brother QL-500]. *)
Example init_QL500 :
  __init__ os_ok (PyStr (lit "windows://Brother QL-500")) fresh
  = (Return tt,
     {| self := {| printer_name := Some (lit "Brother QL-500"); hprinter := None |};
        trace := [EvClosePrinter 7 1;
                  EvOpenPrinterW (Some (lit "Brother QL-500")) 1 7;
                  EvLog INFO (lit "Initializing Windows printer backend for: Brother QL-500")] |}).
Proof. reflexivity. Qed.

(** C5.  For an identifier that starts with the scheme prefix, the
    constructor resolves the device name to the identifier without that
    prefix; for one that does not, to the identifier itself.  When the
    resolved name is empty, construction fails with [InvalidDeviceName],
    before anything is logged or asked of the system. *)
Theorem init_resolves_name (os : platform) (s : state) (spec : pystr) :
  (forall rest, spec = lit "windows://" ++ rest ->
                printer_name (self (snd (__init__ os (PyStr spec) s))) = Some rest) /\
  ((forall rest, spec <> lit "windows://" ++ rest) ->
   printer_name (self (snd (__init__ os (PyStr spec) s))) = Some spec) /\
  (printer_name (self (snd (__init__ os (PyStr spec) s))) = Some [] ->
   fst (__init__ os (PyStr spec) s) = Raise InvalidDeviceName /\
   emitted (__init__ os (PyStr spec)) s []).
Proof.
  destruct (init_str_run os s spec) as [Hname Hempty].
  repeat split.
  - intros rest ->. rewrite Hname, startswith_app. reflexivity.
  - intros Hno. rewrite Hname.
    destruct (startswith spec (lit "windows://")) eqn:E; [| reflexivity].
    apply startswith_true in E. destruct E as [rest E].
    destruct (Hno rest E).
  - rewrite Hname in H. injection H as H. rewrite (Hempty H). reflexivity.
  - rewrite Hname in H. injection H as H. unfold emitted.
    rewrite (Hempty H). reflexivity.
Qed.

Lemma init_resolves_name_witness :
  printer_name (self (snd (__init__ os_ok (PyStr (lit "windows://Brother QL-500")) fresh)))
  = Some (lit "Brother QL-500") /\
  printer_name (self (snd (__init__ os_ok (PyStr (lit "Brother QL-500")) fresh)))
  = Some (lit "Brother QL-500") /\
  fst (__init__ os_ok (PyStr (lit "windows://")) fresh) = Raise InvalidDeviceName.
Proof.
  split; [| split].
  - apply (proj1 (@init_resolves_name os_ok fresh (lit "windows://Brother QL-500"))).
    reflexivity.
  - apply (proj1 (proj2 (@init_resolves_name os_ok fresh (lit "Brother QL-500")))).
    intros rest. vm_compute. discriminate.
  - apply (proj2 (proj2 (@init_resolves_name os_ok fresh (lit "windows://")))).
    vm_compute. reflexivity.
Defined.

(** C8.  For an identifier that is not a string, construction fails with
    [UnsupportedIdentifier], and the run adds no event: no call to the
    system was made (and nothing was logged) before the failure. *)
Theorem init_rejects_non_string (os : platform) (v : pyobj) (s : state) :
  isinstance_str v = false ->
  fst (__init__ os v s) = Raise UnsupportedIdentifier /\
  emitted (__init__ os v) s [] /\
  hprinter (self (snd (__init__ os v s))) = None.
Proof.
  intros Hv.
  destruct v; try discriminate Hv; unfold_run; repeat split.
Qed.

Lemma init_rejects_non_string_witness :
  fst (__init__ os_ok (PyInt 500) fresh) = Raise UnsupportedIdentifier /\
  emitted (__init__ os_ok (PyInt 500)) fresh [] /\
  hprinter (self (snd (__init__ os_ok (PyInt 500) fresh))) = None.
Proof.
  apply (@init_rejects_non_string os_ok (PyInt 500) fresh).
  reflexivity.
Defined.

(** * Open, close, read *)

(** C7.  Open is idempotent.  In every session the second of two Opens
    in a row returns normally and leaves the session state and the
    history as they were.  Two Opens in a row on a session that holds no
    handle make together exactly one open call to the system (whether it
    succeeds or not).  On a session that holds a handle, an Open before
    is still in effect: Open does nothing, and the two calls make no
    open call. *)
Theorem open_idempotent (os : platform) (s : state) :
  _open_printer os (snd (_open_printer os s))
  = (Return tt, snd (_open_printer os s)) /\
  (hprinter (self s) = None ->
   forall evs, emitted (open_twice os) s evs -> count is_OpenPrinterW evs = 1) /\
  (hprinter (self s) <> None -> emitted (open_twice os) s []).
Proof.
  unfold_run; repeat split_run; repeat split;
    try discriminate; try congruence;
    intros _ evs Hev; name_events Hev; reflexivity.
Qed.

Lemma open_idempotent_witness :
  count is_OpenPrinterW (trace (snd (open_twice os_unreachable QL500))) = 1 /\
  emitted (open_twice os_ok) (snd (_write os_ok (Bytes [x01]) QL500)) [].
Proof.
  split.
  - apply (proj1 (proj2 (@open_idempotent os_unreachable QL500))).
    + reflexivity.
    + vm_compute. reflexivity.
  - apply (proj2 (proj2 (@open_idempotent os_ok
                           (snd (_write os_ok (Bytes [x01]) QL500))))).
    vm_compute. discriminate.
Defined.

(** C9.  Read returns the empty byte sequence for every value of the
    length argument, zero and negative ones too; it raises nothing and
    changes nothing. *)
Theorem read_returns_empty (length : Z) (s : state) :
  _read length s = (Return [], s).
Proof. reflexivity. Qed.

(** * Text payloads *)

(** The latin-1 codec fails exactly on a text with a code point above
    255. *)
Lemma encode_latin_1_None (txt : pystr) :
  encode_latin_1 txt = None <-> exists c, In c txt /\ (255 < c)%N.
Proof.
  induction txt as [|c txt IH]; cbn.
  - split; [discriminate | intros [c [[] _]]].
  - destruct (Byte.of_N c) as [b|] eqn:Eb.
    + destruct (encode_latin_1 txt) as [bs|].
      * split; [discriminate |].
        intros [d [[-> | Hd] Hlt]].
        -- apply Byte.of_N_None_iff in Hlt. congruence.
        -- assert (Some bs = None) as Hn by (apply IH; exists d; auto).
           discriminate Hn.
      * split; [intros _ | reflexivity].
        destruct (proj1 IH eq_refl) as [d [Hd Hlt]].
        exists d. auto.
    + split; [intros _ | reflexivity].
      exists c. split; [auto |]. apply Byte.of_N_None_iff. exact Eb.
Qed.




(** * The enumerator *)

Lemma append_if_brother_filter (name : pystr) (ds : list device) :
  append_if_brother name ds
  = ds ++ map windows_device (filter brother_or_QL [name]).
Proof.
  unfold append_if_brother. cbn [filter].
  destruct (brother_or_QL name); cbn; [reflexivity |].
  symmetry. apply app_nil_r.
Qed.

Lemma skipn_nth_error {A} (l : list A) (i : nat) (x : A) :
  nth_error l i = Some x -> skipn i l = x :: skipn (S i) l.
Proof.
  revert l. induction i as [|i IH]; intros [|y l] H; try discriminate H.
  - injection H as ->. reflexivity.
  - apply (IH l H).
Qed.

(** The loop appends, in registry order, an entry for each name from
    index [i] on that passes the test. *)
Lemma enum_loop_filter (keys : list pystr) (i : nat) (ds : list device) :
  enum_loop keys i ds
  = ds ++ map windows_device (filter brother_or_QL (skipn i keys)).
Proof.
  funelim (enum_loop keys i ds).
  - rewrite H, append_if_brother_filter, (skipn_nth_error _ _ e).
    rewrite <- app_assoc, <- map_app, <- filter_app.
    reflexivity.
  - rewrite skipn_all2 by (apply nth_error_None; exact e).
    symmetry. apply app_nil_r.
Qed.

(** What the enumerator returns, by what the registry does. *)
Lemma list_available_devices_returns (reg : winreg) (f : frame) :
  fst (list_available_devices reg f) =
  Return
    match reg_import reg, reg_OpenKey reg with
    | Some _, _ => []
    | None, Some _ => fallback_devices
    | None, None =>
        match map windows_device (filter brother_or_QL (reg_subkeys reg)) with
        | [] => fallback_devices
        | found => found
        end
    end.
Proof.
  destruct reg as [imp opn cls keys], f as [ds lg].
  unfold list_available_devices, try_except, bind, when, may_raise, raise, ret,
    logger, get_devices, set_devices.
  destruct imp, opn, cls; cbn -[enum_loop]; try reflexivity;
    rewrite enum_loop_filter; cbn;
    destruct (map windows_device (filter brother_or_QL keys)); reflexivity.
Qed.

(** The scenario of the spec: of the two registered printers only the
    Brother one is returned. *)
Example enumerator_finds_QL600 :
  fst (list_available_devices
         {| reg_import := None; reg_OpenKey := None; reg_CloseKey := None;
            reg_subkeys := [lit "HP LaserJet"; lit "Brother QL-600"] |}
         no_devices)
  = Return [ {| identifier := lit "windows://Brother QL-600"; instance := None |} ].
Proof. reflexivity. Qed.

(** C6, as stated, fails twice.  When the key cannot be closed after a
    match was found, the discovery has failed but the match is returned,
    not the fallback list.  When the registry module cannot be imported,
    the discovery has failed and the result is the empty list. *)
Lemma no_fallback_after_match_or_import :
  ~ fallback_on_failure reg_close_fails no_devices /\
  ~ fallback_on_failure reg_missing no_devices.
Proof.
  split; intros [claim _].
  - assert (discovery_fails reg_close_fails) as Hfails
        by (right; right; discriminate).
    specialize (claim (or_introl Hfails)).
    vm_compute in claim. discriminate claim.
  - assert (discovery_fails reg_missing) as Hfails
        by (left; discriminate).
    specialize (claim (or_introl Hfails)).
    vm_compute in claim. discriminate claim.
Qed.

(** C6, amended.  When the registry module imports: if opening the
    Printers key raises, or no registered name passes the Brother/QL
    test, the enumerator returns the four well-known names, each behind
    the scheme prefix, in their fixed order.  In every case the
    enumerator returns a list and raises nothing; when the import itself
    raises, the list is empty and the error is logged at error level. *)
Theorem enumerator_fallback (reg : winreg) (f : frame) :
  (reg_import reg = None ->
   reg_OpenKey reg <> None \/ filter brother_or_QL (reg_subkeys reg) = [] ->
   fst (list_available_devices reg f) =
   Return [ {| identifier := lit "windows://Brother QL-500"; instance := None |};
            {| identifier := lit "windows://Brother QL-550"; instance := None |};
            {| identifier := lit "windows://Brother QL-600"; instance := None |};
            {| identifier := lit "windows://Brother QL-700"; instance := None |} ]) /\
  (exists ds, fst (list_available_devices reg f) = Return ds) /\
  (forall e, reg_import reg = Some e ->
             fst (list_available_devices reg f) = Return [] /\
             log (snd (list_available_devices reg f))
             = EvLog ERROR (lit "Error listing Windows printers: " ++ exn_msg e)
                     :: log f).
Proof.
  rewrite list_available_devices_returns.
  repeat split.
  - intros Himp [Hopen | Hnone]; rewrite Himp.
    + destruct (reg_OpenKey reg); [reflexivity | congruence].
    + rewrite Hnone. destruct (reg_OpenKey reg); reflexivity.
  - eexists. reflexivity.
  - rewrite H. reflexivity.
  - destruct reg as [imp opn cls keys], f as [ds lg].
    cbn in H. subst imp. reflexivity.
Qed.

Lemma enumerator_fallback_witness :
  fst (list_available_devices reg_office no_devices) = Return fallback_devices /\
  fst (list_available_devices reg_missing no_devices) = Return [].
Proof.
  split.
  - apply (proj1 (@enumerator_fallback reg_office no_devices)).
    + reflexivity.
    + right. vm_compute. reflexivity.
  - apply (proj2 (proj2 (@enumerator_fallback reg_missing no_devices))
                 (Exn ImportError (lit "No module named 'winreg'"))).
    reflexivity.
Defined.

(** * Further properties of the job transport *)

(** X1.  The calls of a write call into the system follow the protocol
    order.  An open call comes first exactly when the session held no
    handle.  Then follows nothing (the open or the encoding failed), or
    begin-document alone (it failed), or begin-document, begin-page and
    end-document (begin-page failed), or these with the transfer before
    end-document (the transfer failed), or the full job with end-page
    after the transfer.  No other order and no close call occur. *)
Theorem write_call_order
  (os : platform) (data : payload) (s : state) (evs : list event) :
  emitted (_write os data) s evs ->
  exists job,
    calls evs
    = match hprinter (self s) with None => [OpenPrinterW] | Some _ => [] end
      ++ job /\
    In job
       [ [];
         [StartDocPrinterW];
         [StartDocPrinterW; StartPagePrinter; EndDocPrinter];
         [StartDocPrinterW; StartPagePrinter; WritePrinter; EndDocPrinter];
         [StartDocPrinterW; StartPagePrinter; WritePrinter; EndPagePrinter;
          EndDocPrinter] ].
Proof.
  revert evs. unfold_run; repeat split_run;
    intros evs Hev; name_events Hev;
    eexists; (split; [reflexivity |]); cbn; auto 10.
Qed.

Lemma write_call_order_witness :
  exists job,
    calls (trace (snd (_write os_no_page (Bytes [x01]) QL500)))
    = [OpenPrinterW] ++ job /\
    In job
       [ [];
         [StartDocPrinterW];
         [StartDocPrinterW; StartPagePrinter; EndDocPrinter];
         [StartDocPrinterW; StartPagePrinter; WritePrinter; EndDocPrinter];
         [StartDocPrinterW; StartPagePrinter; WritePrinter; EndPagePrinter;
          EndDocPrinter] ].
Proof.
  apply (@write_call_order os_no_page (Bytes [x01]) QL500).
  vm_compute. reflexivity.
Defined.

(** X2.  Every call of a write call is about one handle, the one the
    session holds when the call is over: the handle it held before, or
    the one that the open call of this run stored. *)
Theorem write_uses_one_handle
  (os : platform) (data : payload) (s : state) (evs : list event)
  (e : event) (h : Z) :
  emitted (_write os data) s evs ->
  In e evs ->
  handle_of e = Some h ->
  hprinter (self (snd (_write os data s))) = Some h /\
  (forall held, hprinter (self s) = Some held -> h = held).
Proof.
  revert evs. unfold_run; repeat split_run;
    intros evs Hev Hin Hh; name_events Hev; cbn in Hin;
    repeat (destruct Hin as [Hin | Hin]); try contradiction;
    subst e; cbn in Hh; try discriminate Hh;
    injection Hh as <-; split; try reflexivity;
    intros held Hheld; congruence.
Qed.

Lemma write_uses_one_handle_witness :
  hprinter (self (snd (_write os_ok (Bytes [x01]) QL500))) = Some 7%Z /\
  (forall held, hprinter (self QL500) = Some held -> 7%Z = held).
Proof.
  apply (@write_uses_one_handle os_ok (Bytes [x01]) QL500
           (trace (snd (_write os_ok (Bytes [x01]) QL500)))
           (EvWritePrinter 7 [x01] 1 1 1) 7%Z).
  - vm_compute. reflexivity.
  - vm_compute. auto 10.
  - reflexivity.
Defined.

(** X3.  When the open call of a write call fails, the write call raises
    [OSError] naming the printer, logs the error, and makes no other call
    into the system: no job is begun. *)
Theorem write_open_fails
  (os : platform) (data : payload) (s : state) (evs : list event)
  (name : option pystr) (h : Z) :
  emitted (_write os data) s evs ->
  In (EvOpenPrinterW name 0 h) evs ->
  fst (_write os data s)
  = Raise (Exn OSError (lit "Failed to open printer: " ++ str_of_opt name)) /\
  evs = [EvLog ERROR (lit "Error writing to printer: Failed to open printer: "
                      ++ str_of_opt name);
         EvOpenPrinterW name 0 h] /\
  hprinter (self (snd (_write os data s))) = Some h.
Proof.
  revert evs. unfold_run; repeat split_run;
    intros evs Hev Hin; name_events Hev; member Hin; known_tests;
    read_tests; try congruence;
    repeat split; reflexivity.
Qed.

Lemma write_open_fails_witness :
  let run := _write os_unreachable (Bytes [x01]) QL500 in
  fst run = Raise (Exn OSError (lit "Failed to open printer: Brother QL-500")) /\
  trace (snd run)
  = [EvLog ERROR (lit "Error writing to printer: Failed to open printer: Brother QL-500");
     EvOpenPrinterW (Some (lit "Brother QL-500")) 0 0] /\
  hprinter (self (snd run)) = Some 0%Z.
Proof.
  apply (@write_open_fails os_unreachable (Bytes [x01]) QL500
           (trace (snd (_write os_unreachable (Bytes [x01]) QL500)))
           (Some (lit "Brother QL-500")) 0%Z).
  - vm_compute. reflexivity.
  - vm_compute. auto.
Defined.

(** X4.  When the begin-page step of a write call fails, the call fails
    with [PageStartFailed]: no transfer and no end-page call is made,
    end-document is called once and the handle is neither closed nor
    dropped. *)
Theorem write_begin_page_fails
  (os : platform) (data : payload) (s : state) (evs : list event) (h : Z) :
  emitted (_write os data) s evs ->
  In (EvStartPagePrinter h 0) evs ->
  fst (_write os data s) = Raise PageStartFailed /\
  count is_WritePrinter evs = 0 /\
  count is_EndPagePrinter evs = 0 /\
  count is_EndDocPrinter evs = 1 /\
  count is_ClosePrinter evs = 0 /\
  hprinter (self (snd (_write os data s))) = Some h.
Proof.
  revert evs. unfold_run; repeat split_run;
    intros evs Hev Hin; name_events Hev; member Hin; known_tests;
    read_tests; try congruence;
    repeat split; reflexivity.
Qed.

Lemma write_begin_page_fails_witness :
  let run := _write os_no_page (Bytes [x01]) QL500 in
  fst run = Raise PageStartFailed /\
  count is_WritePrinter (trace (snd run)) = 0 /\
  count is_EndPagePrinter (trace (snd run)) = 0 /\
  count is_EndDocPrinter (trace (snd run)) = 1 /\
  count is_ClosePrinter (trace (snd run)) = 0 /\
  hprinter (self (snd run)) = Some 7%Z.
Proof.
  apply (@write_begin_page_fails os_no_page (Bytes [x01]) QL500
           (trace (snd (_write os_no_page (Bytes [x01]) QL500))) 7%Z).
  - vm_compute. reflexivity.
  - vm_compute. auto 10.
Defined.

(** X5.  A write call that raises logs the exception once at error
    level, as its last act, with the text of the exception; a write call
    that returns normally logs no error. *)
Theorem write_error_logged
  (os : platform) (data : payload) (s : state) (evs : list event) :
  emitted (_write os data) s evs ->
  (forall e, fst (_write os data s) = Raise e ->
             exists older,
               evs = EvLog ERROR (lit "Error writing to printer: " ++ exn_msg e)
                           :: older /\
               count is_error_log older = 0) /\
  (fst (_write os data s) = Return tt -> count is_error_log evs = 0).
Proof.
  revert evs. unfold_run; repeat split_run;
    intros evs Hev; name_events Hev;
    (split; [intros e He | intros He]);
    try discriminate He; try reflexivity;
    injection He as <-; eexists; split; reflexivity.
Qed.

Lemma write_error_logged_witness :
  (exists older,
     trace (snd (_write os_no_job (Bytes [x01]) QL500))
     = EvLog ERROR (lit "Error writing to printer: StartDocPrinter failed")
             :: older /\
     count is_error_log older = 0) /\
  count is_error_log (trace (snd (_write os_ok (Bytes [x01]) QL500))) = 0.
Proof.
  split.
  - apply (proj1 (@write_error_logged os_no_job (Bytes [x01]) QL500
                    (trace (snd (_write os_no_job (Bytes [x01]) QL500)))
                    ltac:(vm_compute; reflexivity)) JobStartFailed).
    vm_compute. reflexivity.
  - apply (proj2 (@write_error_logged os_ok (Bytes [x01]) QL500
                    (trace (snd (_write os_ok (Bytes [x01]) QL500)))
                    ltac:(vm_compute; reflexivity))).
    vm_compute. reflexivity.
Defined.

(** After a write call the session holds a handle cell. *)
Lemma write_holds_handle (os : platform) (data : payload) (s : state) :
  exists h, hprinter (self (snd (_write os data s))) = Some h.
Proof.
  unfold_run; repeat split_run; eexists; reflexivity.
Qed.

(** After a disposal the session holds none. *)
Lemma dispose_drops_handle (os : platform) (s : state) :
  hprinter (self (snd (dispose os s))) = None.
Proof.
  unfold_run; repeat split_run; reflexivity.
Qed.

(** X6.  A write call opens the printer lazily: it makes one open call
    when the session holds no handle and none when it holds one.  So a
    write call after another write call never opens again, and a write
    call after a disposal opens once. *)
Theorem write_opens_lazily
  (os : platform) (data : payload) (s : state) (evs : list event) :
  emitted (_write os data) s evs ->
  count is_OpenPrinterW evs
  = match hprinter (self s) with None => 1 | Some _ => 0 end /\
  (forall data' evs',
     emitted (_write os data') (snd (_write os data s)) evs' ->
     count is_OpenPrinterW evs' = 0) /\
  (forall data' evs',
     emitted (_write os data') (snd (dispose os (snd (_write os data s)))) evs' ->
     count is_OpenPrinterW evs' = 1).
Proof.
  assert (forall data0 s0 evs0,
             emitted (_write os data0) s0 evs0 ->
             count is_OpenPrinterW evs0
             = match hprinter (self s0) with None => 1 | Some _ => 0 end)
    as Hlazy.
  { clear. intros data0 s0 evs0. revert evs0.
    unfold_run; repeat split_run;
      intros evs Hev; name_events Hev; reflexivity. }
  intros Hev. split; [apply (Hlazy _ _ _ Hev) | split].
  - intros data' evs' Hev'. rewrite (Hlazy _ _ _ Hev').
    destruct (write_holds_handle os data s) as [h ->]. reflexivity.
  - intros data' evs' Hev'. rewrite (Hlazy _ _ _ Hev').
    rewrite dispose_drops_handle. reflexivity.
Qed.

Lemma write_opens_lazily_witness :
  count is_OpenPrinterW (trace (snd (_write os_ok (Bytes [x01]) QL500))) = 1 /\
  (forall data' evs',
     emitted (_write os_ok data') (snd (_write os_ok (Bytes [x01]) QL500)) evs' ->
     count is_OpenPrinterW evs' = 0) /\
  (forall data' evs',
     emitted (_write os_ok data')
             (snd (dispose os_ok (snd (_write os_ok (Bytes [x01]) QL500)))) evs' ->
     count is_OpenPrinterW evs' = 1).
Proof.
  apply (@write_opens_lazily os_ok (Bytes [x01]) QL500
           (trace (snd (_write os_ok (Bytes [x01]) QL500)))).
  vm_compute. reflexivity.
Defined.

(** The bytes of an encoded text are its code points. *)
Lemma encode_latin_1_bytes (txt : pystr) (b : list byte) :
  encode_latin_1 txt = Some b -> map Byte.to_N b = txt.
Proof.
  revert b. induction txt as [|c txt IH]; cbn; intros b H.
  - injection H as <-. reflexivity.
  - destruct (Byte.of_N c) as [x|] eqn:Ex; [| discriminate H].
    destruct (encode_latin_1 txt) as [bs|]; [| discriminate H].
    injection H as <-. cbn.
    apply Byte.to_of_N in Ex.
    rewrite Ex, (IH bs eq_refl). reflexivity.
Qed.

(** X7.  A text payload that latin-1 can encode is written exactly as
    its bytes would be: the run of the write call on the text equals the
    run on the byte string with one byte per character, each byte being
    the code point of its character. *)
Theorem write_text_as_bytes
  (os : platform) (txt : pystr) (s : state) :
  (forall c, In c txt -> (c <= 255)%N) ->
  exists b,
    map Byte.to_N b = txt /\
    List.length b = List.length txt /\
    _write os (Text txt) s = _write os (Bytes b) s.
Proof.
  intros Hsmall.
  destruct (encode_latin_1 txt) as [b|] eqn:Eb.
  - exists b. pose proof (encode_latin_1_bytes _ Eb) as Hb.
    split; [exact Hb | split].
    + rewrite <- Hb. symmetry. apply length_map.
    + unfold _write, encode. rewrite Eb. reflexivity.
  - apply encode_latin_1_None in Eb. destruct Eb as [c [Hc Hlt]].
    specialize (Hsmall c Hc). lia.
Qed.

Lemma write_text_as_bytes_witness :
  exists b,
    map Byte.to_N b = lit "abcde" /\
    List.length b = List.length (lit "abcde") /\
    _write os_ok (Text (lit "abcde")) QL500 = _write os_ok (Bytes b) QL500.
Proof.
  apply (@write_text_as_bytes os_ok (lit "abcde") QL500).
  intros c Hc. vm_compute in Hc.
  repeat (destruct Hc as [<- | Hc]; [vm_compute; discriminate |]).
  contradiction.
Defined.

(** * Further properties of the session *)

(** X8.  Construction validates the printer by one open call on the
    resolved name.  When that call succeeds, the handle it stored is
    closed at once (whatever the close call returns), construction
    returns normally, and the session is left with the resolved name and
    without a handle. *)
Theorem init_reachable_printer
  (os : platform) (s : state) (spec : pystr) (evs : list event)
  (name : pystr) (result h : Z) :
  emitted (__init__ os (PyStr spec)) s evs ->
  In (EvOpenPrinterW (Some name) result h) evs ->
  result <> 0%Z ->
  name = resolved_name spec /\
  (exists closed,
     evs = [EvClosePrinter h closed;
            EvOpenPrinterW (Some name) result h;
            EvLog INFO (lit "Initializing Windows printer backend for: " ++ name)]) /\
  fst (__init__ os (PyStr spec) s) = Return tt /\
  self (snd (__init__ os (PyStr spec) s))
  = {| printer_name := Some name; hprinter := None |}.
Proof.
  revert evs. unfold resolved_name, __init__.
  destruct (startswith spec (lit "windows://"));
    [generalize (skipn 10 spec) | generalize spec];
    intros nm; destruct nm; unfold_run; repeat split_run;
    intros evs Hev Hin Hres; name_events Hev; member Hin;
    read_tests; try congruence;
    repeat split; try reflexivity; eexists; reflexivity.
Qed.

Lemma init_reachable_printer_witness :
  lit "Brother QL-500" = resolved_name (lit "windows://Brother QL-500") /\
  (exists closed,
     trace (snd (__init__ os_close_fails (PyStr (lit "windows://Brother QL-500")) fresh))
     = [EvClosePrinter 7 closed;
        EvOpenPrinterW (Some (lit "Brother QL-500")) 1 7;
        EvLog INFO (lit "Initializing Windows printer backend for: "
                    ++ lit "Brother QL-500")]) /\
  fst (__init__ os_close_fails (PyStr (lit "windows://Brother QL-500")) fresh)
  = Return tt /\
  self (snd (__init__ os_close_fails (PyStr (lit "windows://Brother QL-500")) fresh))
  = {| printer_name := Some (lit "Brother QL-500"); hprinter := None |}.
Proof.
  apply (@init_reachable_printer os_close_fails fresh
           (lit "windows://Brother QL-500")
           (trace (snd (__init__ os_close_fails
                          (PyStr (lit "windows://Brother QL-500")) fresh)))
           (lit "Brother QL-500") 1%Z 7%Z).
  - vm_compute. reflexivity.
  - vm_compute. auto.
  - discriminate.
Defined.

(** X9.  When the open call of the validation fails, construction fails
    with a [ValueError] that quotes the resolved name and carries the
    text of the open error.  No close call is made, and the object is
    left holding the handle cell of the failed open. *)
Theorem init_unreachable_printer
  (os : platform) (s : state) (spec : pystr) (evs : list event)
  (name : pystr) (h : Z) :
  emitted (__init__ os (PyStr spec)) s evs ->
  In (EvOpenPrinterW (Some name) 0 h) evs ->
  name = resolved_name spec /\
  fst (__init__ os (PyStr spec) s)
  = Raise (Exn ValueError
               (lit "Could not open printer " ++ dquote ++ name ++ dquote
                ++ lit ": Failed to open printer: " ++ name)) /\
  count is_ClosePrinter evs = 0 /\
  hprinter (self (snd (__init__ os (PyStr spec) s))) = Some h.
Proof.
  revert evs. unfold resolved_name, __init__.
  destruct (startswith spec (lit "windows://"));
    [generalize (skipn 10 spec) | generalize spec];
    intros nm; destruct nm; unfold_run; repeat split_run;
    intros evs Hev Hin; name_events Hev; member Hin; known_tests;
    read_tests; try congruence;
    repeat split; reflexivity.
Qed.

Lemma init_unreachable_printer_witness :
  lit "QL" = resolved_name (lit "QL") /\
  fst (__init__ os_unreachable (PyStr (lit "QL")) fresh)
  = Raise (Exn ValueError
               (lit "Could not open printer " ++ dquote ++ lit "QL" ++ dquote
                ++ lit ": Failed to open printer: " ++ lit "QL")) /\
  count is_ClosePrinter (trace (snd (__init__ os_unreachable (PyStr (lit "QL")) fresh)))
  = 0 /\
  hprinter (self (snd (__init__ os_unreachable (PyStr (lit "QL")) fresh))) = Some 0%Z.
Proof.
  apply (@init_unreachable_printer os_unreachable fresh (lit "QL")
           (trace (snd (__init__ os_unreachable (PyStr (lit "QL")) fresh)))
           (lit "QL") 0%Z).
  - vm_compute. reflexivity.
  - vm_compute. auto.
Defined.

(** X10.  Close never raises and is idempotent.  On a session that holds
    a handle it makes one close call on that handle, ignores what the
    call returns, and drops the handle; on a session without a handle it
    does nothing.  A second Close in a row does nothing. *)
Theorem close_idempotent (os : platform) (s : state) :
  fst (_close_printer os s) = Return tt /\
  hprinter (self (snd (_close_printer os s))) = None /\
  _close_printer os (snd (_close_printer os s))
  = (Return tt, snd (_close_printer os s)) /\
  (forall h, hprinter (self s) = Some h ->
             emitted (_close_printer os) s
                     [EvClosePrinter h (os_ClosePrinter os (trace s) h)]) /\
  (hprinter (self s) = None -> _close_printer os s = (Return tt, s)).
Proof.
  unfold_run; repeat split_run; repeat split;
    try reflexivity; try discriminate.
  intros h Hh. injection Hh as ->. reflexivity.
Qed.

Lemma close_idempotent_witness :
  emitted (_close_printer os_close_fails) QL500_open [EvClosePrinter 7 0] /\
  _close_printer os_close_fails QL500 = (Return tt, QL500).
Proof.
  split.
  - apply (proj1 (proj2 (proj2 (proj2 (@close_idempotent os_close_fails QL500_open)))) 7%Z).
    reflexivity.
  - apply (proj2 (proj2 (proj2 (proj2 (@close_idempotent os_close_fails QL500))))).
    reflexivity.
Defined.

(** The open calls of a write call, by the handle held before. *)
Lemma write_open_count
  (os : platform) (data : payload) (s : state) (evs : list event) :
  emitted (_write os data) s evs ->
  count is_OpenPrinterW evs
  = match hprinter (self s) with None => 1 | Some _ => 0 end.
Proof.
  revert evs. unfold_run; repeat split_run;
    intros evs Hev; name_events Hev; reflexivity.
Qed.

(** X11.  A failed Open is not tried again.  When the open call fails,
    Open raises [OSError] naming the printer, but the session keeps the
    handle cell of the failed call.  The next Open therefore returns
    normally without a call into the system, and a following write call
    makes no open call either: it goes on with the cell of the failed
    open. *)
Theorem failed_open_not_retried
  (os : platform) (s : state) (evs : list event) (name : option pystr) (h : Z) :
  emitted (_open_printer os) s evs ->
  In (EvOpenPrinterW name 0 h) evs ->
  fst (_open_printer os s)
  = Raise (Exn OSError (lit "Failed to open printer: " ++ str_of_opt name)) /\
  hprinter (self (snd (_open_printer os s))) = Some h /\
  _open_printer os (snd (_open_printer os s))
  = (Return tt, snd (_open_printer os s)) /\
  (forall data evs',
     emitted (_write os data) (snd (_open_printer os s)) evs' ->
     count is_OpenPrinterW evs' = 0 /\
     forall e h', In e evs' -> handle_of e = Some h' -> h' = h).
Proof.
  intros Hev Hin.
  assert (fst (_open_printer os s)
          = Raise (Exn OSError (lit "Failed to open printer: " ++ str_of_opt name)) /\
          hprinter (self (snd (_open_printer os s))) = Some h /\
          _open_printer os (snd (_open_printer os s))
          = (Return tt, snd (_open_printer os s))) as [Hraise [Hcell Hnext]].
  { revert evs Hev Hin. unfold_run; repeat split_run;
      intros evs Hev Hin; name_events Hev; member Hin; known_tests;
      read_tests; try congruence;
      repeat split; reflexivity. }
  split; [exact Hraise | split; [exact Hcell | split; [exact Hnext |]]].
  intros data evs' Hev'. split.
  - rewrite (write_open_count Hev'), Hcell. reflexivity.
  - intros e h' He Hh'.
    revert evs' Hev' He Hh'. generalize Hcell.
    generalize (snd (_open_printer os s)) as s1. clear.
    intros s1 Hcell evs'. revert Hcell.
    unfold_run; repeat split_run;
      intros Hcell Hev He Hh; try discriminate Hcell;
      injection Hcell as ->; name_events Hev; cbn in He;
      repeat (destruct He as [He | He]); try contradiction;
      subst e; cbn in Hh; try discriminate Hh;
      injection Hh as <-; reflexivity.
Qed.

Lemma failed_open_not_retried_witness :
  let s1 := snd (_open_printer os_unreachable QL500) in
  fst (_open_printer os_unreachable QL500)
  = Raise (Exn OSError (lit "Failed to open printer: Brother QL-500")) /\
  hprinter (self s1) = Some 0%Z /\
  _open_printer os_unreachable s1 = (Return tt, s1) /\
  (forall data evs',
     emitted (_write os_unreachable data) s1 evs' ->
     count is_OpenPrinterW evs' = 0 /\
     forall e h', In e evs' -> handle_of e = Some h' -> h' = 0%Z).
Proof.
  apply (@failed_open_not_retried os_unreachable QL500
           (trace (snd (_open_printer os_unreachable QL500)))
           (Some (lit "Brother QL-500")) 0%Z).
  - vm_compute. reflexivity.
  - vm_compute. auto.
Defined.

(** X12.  Only the constructor sets the printer name: a write call, Open,
    Close and disposal leave it as it was, whatever the system answers. *)
Theorem printer_name_kept (os : platform) (s : state) :
  (forall data,
     printer_name (self (snd (_write os data s))) = printer_name (self s)) /\
  printer_name (self (snd (_open_printer os s))) = printer_name (self s) /\
  printer_name (self (snd (_close_printer os s))) = printer_name (self s) /\
  printer_name (self (snd (dispose os s))) = printer_name (self s).
Proof.
  split; [intros data |];
    unfold_run; repeat split_run; repeat split; reflexivity.
Qed.

(** * Further properties of the enumerator *)

(** [contains] decides whether the needle is a contiguous run. *)
Lemma contains_spec (needle s : pystr) :
  contains needle s = true <-> occurs_in needle s.
Proof.
  split.
  - induction s as [|c s IH]; cbn; intros H.
    + rewrite orb_false_r in H.
      apply startswith_true in H. destruct H as [rest ->].
      exists [], rest. reflexivity.
    + apply orb_true_iff in H. destruct H as [H | H].
      * apply startswith_true in H. destruct H as [rest ->].
        exists [], rest. reflexivity.
      * destruct (IH H) as [before [after ->]].
        exists (c :: before), after. reflexivity.
  - intros [before [after ->]].
    induction before as [|c before IH].
    + cbn [app].
      destruct (needle ++ after) eqn:E; cbn; rewrite <- E;
        rewrite startswith_app; reflexivity.
    + cbn. rewrite IH. apply orb_true_r.
Qed.

(** X13.  When the registry can be read and holds a matching name, the
    enumerator returns one entry for each registered name that passes
    the Brother/QL test, in registry order, with the scheme prefix in
    front of the name and no instance; names that do not pass and the
    fallback names are left out.  A failure to close the key does not
    change the result. *)
Theorem enumerator_discovery (reg : winreg) (f : frame) :
  reg_import reg = None ->
  reg_OpenKey reg = None ->
  filter brother_or_QL (reg_subkeys reg) <> [] ->
  fst (list_available_devices reg f)
  = Return (map (fun name => {| identifier := lit "windows://" ++ name;
                                instance := None |})
                (filter brother_or_QL (reg_subkeys reg))).
Proof.
  intros Himp Hopen Hsome.
  rewrite list_available_devices_returns, Himp, Hopen.
  destruct (filter brother_or_QL (reg_subkeys reg)); [congruence | reflexivity].
Qed.

Lemma enumerator_discovery_witness :
  fst (list_available_devices reg_labels no_devices)
  = Return [ {| identifier := lit "windows://Brother QL-600"; instance := None |};
             {| identifier := lit "windows://QL-700 (Copy 1)"; instance := None |} ] /\
  fst (list_available_devices reg_close_fails no_devices)
  = Return [ {| identifier := lit "windows://Brother QL-600"; instance := None |} ].
Proof.
  split.
  - apply (@enumerator_discovery reg_labels no_devices);
      [reflexivity | reflexivity | vm_compute; discriminate].
  - apply (@enumerator_discovery reg_close_fails no_devices);
      [reflexivity | reflexivity | vm_compute; discriminate].
Defined.

(** The test of the enumerator is a case-sensitive substring test. *)
Lemma brother_or_QL_substring (name : pystr) :
  brother_or_QL name = true <->
  occurs_in (lit "Brother") name \/ occurs_in (lit "QL") name.
Proof.
  unfold brother_or_QL. rewrite orb_true_iff, !contains_spec. reflexivity.
Qed.

(** X14.  When the registry can be read and holds a matching name, a
    printer is listed exactly when it is registered and the text Brother
    or the text QL occurs in its name as a contiguous, case-sensitive run
    of characters. *)
Theorem enumerator_lists_matches
  (reg : winreg) (f : frame) (ds : list device) (name : pystr) :
  reg_import reg = None ->
  reg_OpenKey reg = None ->
  filter brother_or_QL (reg_subkeys reg) <> [] ->
  fst (list_available_devices reg f) = Return ds ->
  (In {| identifier := lit "windows://" ++ name; instance := None |} ds <->
   In name (reg_subkeys reg) /\
   (occurs_in (lit "Brother") name \/ occurs_in (lit "QL") name)).
Proof.
  intros Himp Hopen Hsome Hds.
  rewrite list_available_devices_returns, Himp, Hopen in Hds.
  destruct (filter brother_or_QL (reg_subkeys reg)) as [|k ks] eqn:E;
    [congruence |].
  cbn [map] in Hds. injection Hds as <-.
  change (windows_device k :: map windows_device ks)
    with (map windows_device (k :: ks)).
  rewrite <- E, <- brother_or_QL_substring, <- filter_In, in_map_iff.
  split.
  - intros [k' [Hk' Hin]]. unfold windows_device in Hk'.
    injection Hk' as Hk'. subst k'. exact Hin.
  - intros Hin. exists name. split; [reflexivity | exact Hin].
Qed.

Lemma enumerator_lists_matches_witness :
  In {| identifier := lit "windows://" ++ lit "QL-700 (Copy 1)"; instance := None |}
     [ {| identifier := lit "windows://Brother QL-600"; instance := None |};
       {| identifier := lit "windows://QL-700 (Copy 1)"; instance := None |} ] <->
  In (lit "QL-700 (Copy 1)") (reg_subkeys reg_labels) /\
  (occurs_in (lit "Brother") (lit "QL-700 (Copy 1)") \/
   occurs_in (lit "QL") (lit "QL-700 (Copy 1)")).
Proof.
  apply (@enumerator_lists_matches reg_labels no_devices);
    [reflexivity | reflexivity | vm_compute; discriminate | reflexivity].
Defined.

(** The constructor fails with [InvalidDeviceName] only on an empty
    resolved name. *)
Lemma init_invalid_name (os : platform) (s : state) (spec : pystr) :
  fst (__init__ os (PyStr spec) s) = Raise InvalidDeviceName ->
  resolved_name spec = [].
Proof.
  unfold resolved_name, __init__.
  destruct (startswith spec (lit "windows://"));
    [generalize (skipn 10 spec) | generalize spec];
    intros nm; destruct nm; try reflexivity;
    unfold_run; repeat split_run; intros H; discriminate H.
Qed.

(** The constructor takes every string for an identifier. *)
Lemma init_str_supported (os : platform) (s : state) (spec : pystr) :
  fst (__init__ os (PyStr spec) s) <> Raise UnsupportedIdentifier.
Proof.
  unfold __init__.
  destruct (startswith spec (lit "windows://"));
    [generalize (skipn 10 spec) | generalize spec];
    intros nm; destruct nm;
    unfold_run; repeat split_run; intros H; discriminate H.
Qed.

(** What the enumerator returns are entries for non-empty names. *)
Lemma enumerated_device (reg : winreg) (f : frame) (ds : list device) (d : device) :
  fst (list_available_devices reg f) = Return ds ->
  In d ds ->
  exists name, name <> [] /\ d = windows_device name.
Proof.
  intros Hds Hd.
  rewrite list_available_devices_returns in Hds. injection Hds as <-.
  assert (In d fallback_devices -> exists name, name <> [] /\ d = windows_device name)
    as Hfallback.
  { intros H. cbn in H.
    repeat (destruct H as [<- | H]; [eexists; split; [| reflexivity]; discriminate |]).
    contradiction. }
  destruct (reg_import reg); [destruct Hd |].
  destruct (reg_OpenKey reg); [exact (Hfallback Hd) |].
  destruct (map windows_device (filter brother_or_QL (reg_subkeys reg)))
    as [|k ks] eqn:E; [exact (Hfallback Hd) |].
  rewrite <- E in Hd. apply in_map_iff in Hd.
  destruct Hd as [name [<- Hname]]. apply filter_In in Hname.
  exists name. split; [| reflexivity].
  intros ->. destruct Hname as [_ Hname]. discriminate Hname.
Qed.

(** X15.  Every entry that the enumerator returns can be handed to the
    constructor: its identifier is the scheme prefix in front of a
    non-empty name, its instance is empty, the constructor resolves the
    identifier back to that name, and construction fails neither with
    [UnsupportedIdentifier] nor with [InvalidDeviceName]. *)
Theorem enumerated_identifier_resolves
  (reg : winreg) (f : frame) (ds : list device) (d : device)
  (os : platform) (s : state) :
  fst (list_available_devices reg f) = Return ds ->
  In d ds ->
  exists name,
    name <> [] /\
    identifier d = lit "windows://" ++ name /\
    instance d = None /\
    printer_name (self (snd (__init__ os (PyStr (identifier d)) s))) = Some name /\
    fst (__init__ os (PyStr (identifier d)) s) <> Raise UnsupportedIdentifier /\
    fst (__init__ os (PyStr (identifier d)) s) <> Raise InvalidDeviceName.
Proof.
  intros Hds Hd.
  destruct (@enumerated_device reg f ds d Hds Hd) as [name [Hname ->]].
  exists name. cbn [identifier instance windows_device].
  repeat split; try assumption.
  - destruct (init_str_run os s (lit "windows://" ++ name)) as [Hpn _].
    rewrite Hpn, startswith_app. reflexivity.
  - apply init_str_supported.
  - intros H. apply init_invalid_name in H.
    unfold resolved_name in H. rewrite startswith_app in H.
    apply Hname. exact H.
Qed.

Lemma enumerated_identifier_resolves_witness :
  exists name,
    name <> [] /\
    identifier (windows_device (lit "Brother QL-600")) = lit "windows://" ++ name /\
    instance (windows_device (lit "Brother QL-600")) = None /\
    printer_name
      (self (snd (__init__ os_ok
                    (PyStr (identifier (windows_device (lit "Brother QL-600")))) fresh)))
    = Some name /\
    fst (__init__ os_ok (PyStr (identifier (windows_device (lit "Brother QL-600")))) fresh)
    <> Raise UnsupportedIdentifier /\
    fst (__init__ os_ok (PyStr (identifier (windows_device (lit "Brother QL-600")))) fresh)
    <> Raise InvalidDeviceName.
Proof.
  apply (@enumerated_identifier_resolves reg_labels no_devices
           [windows_device (lit "Brother QL-600");
            windows_device (lit "QL-700 (Copy 1)")]).
  - reflexivity.
  - left. reflexivity.
Defined.

(** X16.  The enumerator writes at most one log record.  A failed import
    of the registry module is logged at error level; a failure to open
    or to close the registry key is logged at debug level; when the
    registry answers, nothing is logged, whether printers were found or
    the fallback list is returned. *)
Theorem enumerator_log (reg : winreg) (f : frame) :
  log (snd (list_available_devices reg f))
  = match reg_import reg, reg_OpenKey reg, reg_CloseKey reg with
    | Some e, _, _ =>
        [EvLog ERROR (lit "Error listing Windows printers: " ++ exn_msg e)]
    | None, Some e, _ =>
        [EvLog DEBUG (lit "Could not enumerate printers from registry: "
                      ++ exn_msg e)]
    | None, None, Some e =>
        [EvLog DEBUG (lit "Could not enumerate printers from registry: "
                      ++ exn_msg e)]
    | None, None, None => []
    end ++ log f.
Proof.
  destruct reg as [imp opn cls keys], f as [ds lg].
  unfold list_available_devices, try_except, bind, when, may_raise, raise, ret,
    logger, get_devices, set_devices.
  destruct imp, opn, cls; cbn -[enum_loop]; try reflexivity;
    destruct (is_nil (enum_loop keys 0 [])); reflexivity.
Qed.

(** X17.  The enumerator returns the empty list exactly when the import
    of the registry module fails: whenever the module imports, at least
    one entry is returned. *)
Theorem enumerator_empty_iff_import_fails (reg : winreg) (f : frame) :
  fst (list_available_devices reg f) = Return [] <-> reg_import reg <> None.
Proof.
  rewrite list_available_devices_returns.
  destruct (reg_import reg) as [e|].
  - split; [discriminate | reflexivity].
  - split; [| congruence]. intros H.
    destruct (reg_OpenKey reg); [discriminate H |].
    destruct (map windows_device (filter brother_or_QL (reg_subkeys reg)));
      discriminate H.
Qed.

Lemma enumerator_empty_iff_import_fails_witness :
  fst (list_available_devices reg_missing no_devices) = Return [] /\
  reg_import reg_missing <> None.
Proof.
  split.
  - apply (proj2 (@enumerator_empty_iff_import_fails reg_missing no_devices)).
    discriminate.
  - apply (proj1 (@enumerator_empty_iff_import_fails reg_missing no_devices)).
    reflexivity.
Defined.

(** * Further properties of a job *)

(** X18.  Every job is submitted the same way: begin-document is called
    with level 1 and a document information that names the job Brother
    QL Label, redirects to no file and asks for the RAW data type. *)
Theorem write_document_info
  (os : platform) (data : payload) (s : state) (evs : list event)
  (h lvl : Z) (doc : DOC_INFO_1) (job_id : Z) :
  emitted (_write os data) s evs ->
  In (EvStartDocPrinterW h lvl doc job_id) evs ->
  lvl = 1%Z /\
  pDocName doc = Some (lit "Brother QL Label") /\
  pOutputFile doc = None /\
  pDatatype doc = Some (lit "RAW").
Proof.
  revert evs. unfold_run; repeat split_run;
    intros evs Hev Hin; name_events Hev; member Hin;
    repeat split.
Qed.

Lemma write_document_info_witness :
  1%Z = 1%Z /\
  pDocName label_doc = Some (lit "Brother QL Label") /\
  pOutputFile label_doc = None /\
  pDatatype label_doc = Some (lit "RAW").
Proof.
  apply (@write_document_info os_no_job (Bytes [x01]) QL500
           (trace (snd (_write os_no_job (Bytes [x01]) QL500)))
           7%Z 1%Z label_doc 0%Z).
  - vm_compute. reflexivity.
  - vm_compute. auto.
Defined.

(** X19.  A write call that returns normally has made the full job: it
    called begin-document, begin-page, the transfer, end-page and
    end-document in this order, and the one transfer call was given the
    bytes of the payload and their number and reported success. *)
Theorem write_returns_after_full_job
  (os : platform) (data : payload) (s : state) (evs : list event) :
  emitted (_write os data) s evs ->
  fst (_write os data s) = Return tt ->
  calls evs
  = match hprinter (self s) with None => [OpenPrinterW] | Some _ => [] end
    ++ [StartDocPrinterW; StartPagePrinter; WritePrinter; EndPagePrinter;
        EndDocPrinter] /\
  exists h buf result written,
    In (EvWritePrinter h buf (List.length buf) result written) evs /\
    result <> 0%Z /\
    match data with
    | Bytes b => buf = b
    | Text t => encode_latin_1 t = Some buf
    end.
Proof.
  revert evs. unfold_run; repeat split_run;
    intros evs Hev Hret; name_events Hev; try discriminate Hret;
    read_tests;
    (split; [reflexivity |]);
    do 4 eexists; (split; [cbn; eauto 10 | split; [eassumption | reflexivity]]).
Qed.

Lemma write_returns_after_full_job_witness :
  calls (trace (snd (_write os_ok (Text (lit "abcde")) QL500)))
  = [OpenPrinterW] ++ [StartDocPrinterW; StartPagePrinter; WritePrinter;
                       EndPagePrinter; EndDocPrinter] /\
  exists h buf result written,
    In (EvWritePrinter h buf (List.length buf) result written)
       (trace (snd (_write os_ok (Text (lit "abcde")) QL500))) /\
    result <> 0%Z /\
    encode_latin_1 (lit "abcde") = Some buf.
Proof.
  apply (@write_returns_after_full_job os_ok (Text (lit "abcde")) QL500).
  - vm_compute. reflexivity.
  - vm_compute. reflexivity.
Defined.

(** X20.  A failed end-page does not fail the job: the write call logs a
    warning, still calls end-document once after it, and returns
    normally. *)
Theorem write_end_page_fails
  (os : platform) (data : payload) (s : state) (evs : list event) (h : Z) :
  emitted (_write os data) s evs ->
  In (EvEndPagePrinter h 0) evs ->
  fst (_write os data s) = Return tt /\
  In (EvLog WARNING (lit "EndPagePrinter failed")) evs /\
  count is_EndDocPrinter evs = 1 /\
  exists ended newer older,
    evs = newer ++ EvEndDocPrinter h ended :: older /\
    In (EvEndPagePrinter h 0) older.
Proof.
  revert evs. unfold_run; repeat split_run;
    intros evs Hev Hin; name_events Hev; member Hin; known_tests;
    read_tests; try congruence;
    repeat match goal with
           | H : _ = 0%Z |- _ => rewrite H in *
           end;
    (split; [reflexivity |]);
    (split; [cbn; auto 10 |]);
    (split; [reflexivity |]);
    match goal with
    | |- exists ended newer older, ?l = _ /\ _ =>
        let a := after_end_doc l in
        eexists; exists a; eexists; split; [reflexivity | cbn; auto 10]
    end.
Qed.

Lemma write_end_page_fails_witness :
  let run := _write os_no_end_page (Bytes [x01]) QL500 in
  fst run = Return tt /\
  In (EvLog WARNING (lit "EndPagePrinter failed")) (trace (snd run)) /\
  count is_EndDocPrinter (trace (snd run)) = 1 /\
  exists ended newer older,
    trace (snd run) = newer ++ EvEndDocPrinter 7 ended :: older /\
    In (EvEndPagePrinter 7 0) older.
Proof.
  apply (@write_end_page_fails os_no_end_page (Bytes [x01]) QL500
           (trace (snd (_write os_no_end_page (Bytes [x01]) QL500))) 7%Z).
  - vm_compute. reflexivity.
  - vm_compute. auto 10.
Defined.

(** X21.  A write call raises nothing but these: the [OSError] of a
    failed open (only when the session held no handle), the codec's
    [UnicodeEncodeError] (only for a text with a code point above 255),
    and the three errors of the job transport. *)
Theorem write_error_kinds
  (os : platform) (data : payload) (s : state) (e : exn) :
  fst (_write os data s) = Raise e ->
  (hprinter (self s) = None /\
   e = Exn OSError (lit "Failed to open printer: "
                    ++ str_of_opt (printer_name (self s)))) \/
  (exists txt, data = Text txt /\
               (exists c, In c txt /\ (255 < c)%N) /\
               e = Exn UnicodeEncodeError (codec_error_text os txt)) \/
  is_job_error e.
Proof.
  unfold is_job_error.
  unfold_run; repeat split_run; intros H; try discriminate H;
    injection H as <-;
    repeat match goal with
           | H : encode_latin_1 _ = None |- _ => apply encode_latin_1_None in H
           end;
    first [ solve [left; split; reflexivity]
          | solve [right; left; eexists; split; [reflexivity | split; [eassumption | reflexivity]]]
          | solve [right; right; left; reflexivity]
          | solve [right; right; right; left; reflexivity]
          | solve [right; right; right; right; do 2 eexists; reflexivity] ].
Qed.

Lemma write_error_kinds_witness :
  (hprinter (self QL500) = None /\
   Exn OSError (lit "Failed to open printer: Brother QL-500")
   = Exn OSError (lit "Failed to open printer: "
                  ++ str_of_opt (printer_name (self QL500)))) \/
  (exists txt, Bytes [x01] = Text txt /\
               (exists c, In c txt /\ (255 < c)%N) /\
               Exn OSError (lit "Failed to open printer: Brother QL-500")
               = Exn UnicodeEncodeError (codec_error_text os_unreachable txt)) \/
  is_job_error (Exn OSError (lit "Failed to open printer: Brother QL-500")).
Proof.
  apply (@write_error_kinds os_unreachable (Bytes [x01]) QL500).
  vm_compute. reflexivity.
Defined.

(** X22.  Construction raises nothing but these: [UnsupportedIdentifier]
    for a value that is not a string, and a [ValueError] for a string
    (an empty name, or a printer that cannot be opened).  The [OSError]
    of the failed open never leaves the constructor. *)
Theorem init_error_kinds
  (os : platform) (v : pyobj) (s : state) (e : exn) :
  fst (__init__ os v s) = Raise e ->
  (isinstance_str v = false /\ e = UnsupportedIdentifier) \/
  (isinstance_str v = true /\ exn_cls e = ValueError).
Proof.
  destruct v as [spec| | | |];
    try (unfold_run; intros H; injection H as <-; left; split; reflexivity).
  unfold __init__.
  destruct (startswith spec (lit "windows://"));
    [generalize (skipn 10 spec) | generalize spec];
    intros nm; destruct nm; unfold_run; repeat split_run;
    intros H; try discriminate H; injection H as <-;
    right; split; reflexivity.
Qed.

Lemma init_error_kinds_witness :
  (isinstance_str (PyStr (lit "QL")) = false /\
   Exn ValueError (lit "Could not open printer " ++ dquote ++ lit "QL" ++ dquote
                   ++ lit ": Failed to open printer: QL")
   = UnsupportedIdentifier) \/
  (isinstance_str (PyStr (lit "QL")) = true /\
   exn_cls (Exn ValueError (lit "Could not open printer " ++ dquote ++ lit "QL"
                            ++ dquote ++ lit ": Failed to open printer: QL"))
   = ValueError).
Proof.
  apply (@init_error_kinds os_unreachable (PyStr (lit "QL")) fresh).
  vm_compute. reflexivity.
Defined.
